(** * Stock recommendation filter: [filter_stocks] of stock_recommendation.py

    The engine takes a pandas DataFrame of stock indicators and four investor
    attributes and narrows the frame through four blocks of boolean-mask
    selections, then projects five columns and drops duplicate rows.

    Embedding.
    - A float64 column is a list of binary64 values ([PrimFloat.float]), so
      NaN, the two zeros and the infinities behave as they do in numpy.
    - A DataFrame is the list of its rows, in positional order.  A row carries
      the five columns the function reads and, in [other], whatever further
      columns the sheet has.
    - [s < c], [s > c], [s.between(l, r)] build boolean masks, [&] combines
      them elementwise and [df[mask]] selects: these are modelled as such,
      not as a row-wise filter; that the two agree is proved below.
    - [asset_size] and [expected_return] are Python scalars: an int (what the
      form of [main] supplies) or a float.
    - [raise ValueError] is the [Raise] branch of [result]. *)

From Stdlib Require Import ZArith List String Bool Lia Floats.
Import ListNotations.

Local Open Scope string_scope.
Local Open Scope list_scope.

(** ** Python scalars and exceptions *)

Inductive pynum : Type :=
| PyInt (z : Z)
| PyFloat (f : float).

Inductive exn : Type :=
| ValueError (msg : string).

Inductive result (A : Type) : Type :=
| Ok (a : A)
| Raise (e : exn).

Arguments Ok {A} a.
Arguments Raise {A} e.

(** The integer literals of the source (5, 10, 30, 50, 70, 100000, 1000000)
    as binary64 values.  All of them are non-negative and far below 2^53, so
    the conversion is exact, and comparing a float with the Python int gives
    the same answer as comparing it with this float. *)
Definition lit (c : Z) : float := PrimFloat.of_uint63 (Uint63.of_Z c).

(** [x < c] for a Python scalar [x] and an integer literal [c]. *)
Definition num_lt (x : pynum) (c : Z) : bool :=
  match x with
  | PyInt z => (z <? c)%Z
  | PyFloat f => (f <? lit c)%float
  end.

(** [c <= x] for an integer literal [c] and a Python scalar [x]. *)
Definition lit_le (c : Z) (x : pynum) : bool :=
  match x with
  | PyInt z => (c <=? z)%Z
  | PyFloat f => (lit c <=? f)%float
  end.

(** ** Series and boolean masks *)

Definition series_lt (s : list float) (c : Z) : list bool :=
  map (fun x => (x <? lit c)%float) s.

Definition series_gt (s : list float) (c : Z) : list bool :=
  map (fun x => (lit c <? x)%float) s.

Definition series_le (s : list float) (c : Z) : list bool :=
  map (fun x => (x <=? lit c)%float) s.

Definition series_ge (s : list float) (c : Z) : list bool :=
  map (fun x => (lit c <=? x)%float) s.

(** [a & b] *)
Definition mask_and (a b : list bool) : list bool :=
  map (fun p => fst p && snd p) (combine a b).

(** [s.between(l, r)], inclusive on both sides: [(s >= l) & (s <= r)]. *)
Definition between (s : list float) (l r : Z) : list bool :=
  mask_and (series_ge s l) (series_le s r).

(** ** DataFrames *)

Record Row (E : Type) : Type := mkRow {
  code : string;   (* column 股票代码 *)
  K : float;
  D : float;
  J : float;
  RSI : float;
  other : E        (* the columns [filter_stocks] never reads *)
}.

Arguments mkRow {E} code K D J RSI other.
Arguments code {E} r.
Arguments K {E} r.
Arguments D {E} r.
Arguments J {E} r.
Arguments RSI {E} r.
Arguments other {E} r.

Definition DataFrame (E : Type) : Type := list (Row E).

(** [df[name]] *)
Definition col {E A : Type} (f : Row E -> A) (df : DataFrame E) : list A :=
  map f df.

(** [df[mask]] *)
Fixpoint getitem_mask {A : Type} (df : list A) (mask : list bool) : list A :=
  match df, mask with
  | r :: df', b :: mask' =>
      if b then r :: getitem_mask df' mask' else getitem_mask df' mask'
  | _, _ => []
  end.

(** [df[['股票代码', 'K', 'D', 'J', 'RSI']]] *)
Definition project {E : Type} (r : Row E) : Row unit :=
  mkRow (code r) (K r) (D r) (J r) (RSI r) tt.

(** ** drop_duplicates

    pandas factorizes every column and marks a row as duplicated when the
    tuple of its labels was seen before.  Two float cells get the same label
    when they compare equal or are both NaN; two string cells when they are
    the same string. *)

Definition float_same (x y : float) : bool :=
  (x =? y)%float || (PrimFloat.is_nan x && PrimFloat.is_nan y).

Definition row_same (a b : Row unit) : bool :=
  (code a =? code b)%string
  && float_same (K a) (K b) && float_same (D a) (D b)
  && float_same (J a) (J b) && float_same (RSI a) (RSI b).

(** [df.duplicated(keep='first')], scanning with the rows seen so far. *)
Fixpoint duplicated_from (seen rows : list (Row unit)) : list bool :=
  match rows with
  | [] => []
  | r :: rest => existsb (row_same r) seen :: duplicated_from (r :: seen) rest
  end.

Definition duplicated (rows : list (Row unit)) : list bool :=
  duplicated_from [] rows.

(** [df[-df.duplicated()]] *)
Definition drop_duplicates (rows : list (Row unit)) : list (Row unit) :=
  getitem_mask rows (map negb (duplicated rows)).

(** ** The four blocks of [filter_stocks] *)

Definition risk_averse : string := "厌恶风险".
Definition risk_neutral : string := "中立".
Definition risk_seeking : string := "偏爱风险".
Definition married : string := "已婚".
Definition single : string := "未婚".

Definition risk_error : exn :=
  ValueError "风险偏好输入错误，请输入：厌恶风险、中立、偏爱风险".

(** Lines 13-24: the risk-preference selection on the raw frame. *)
Definition risk_stage {E : Type} (df : DataFrame E) (risk_preference : string)
  : result (DataFrame E) :=
  if (risk_preference =? risk_averse)%string then
    Ok (getitem_mask df
          (mask_and (mask_and (mask_and (series_lt (col K df) 30)
                                        (series_lt (col D df) 30))
                              (series_lt (col J df) 30))
                    (series_lt (col RSI df) 50)))
  else if (risk_preference =? risk_neutral)%string then
    Ok (getitem_mask df
          (mask_and (mask_and (mask_and (between (col K df) 30 70)
                                        (between (col D df) 30 70))
                              (between (col J df) 30 70))
                    (between (col RSI df) 30 70)))
  else if (risk_preference =? risk_seeking)%string then
    Ok (getitem_mask df
          (mask_and (mask_and (mask_and (series_gt (col K df) 70)
                                        (series_gt (col D df) 70))
                              (series_gt (col J df) 70))
                    (series_gt (col RSI df) 50)))
  else Raise risk_error.

(** Lines 27-32: the asset-size bracket. *)
Definition asset_stage {E : Type} (filtered : DataFrame E) (asset_size : pynum)
  : DataFrame E :=
  if num_lt asset_size 100000 then
    getitem_mask filtered (series_lt (col RSI filtered) 30)
  else if lit_le 100000 asset_size && num_lt asset_size 1000000 then
    getitem_mask filtered (between (col RSI filtered) 30 70)
  else
    getitem_mask filtered (series_gt (col RSI filtered) 70).

(** Lines 35-40: the marital-status selection; no [else] branch. *)
Definition marital_stage {E : Type} (filtered : DataFrame E)
  (marital_status : string) : DataFrame E :=
  if (marital_status =? married)%string then
    getitem_mask filtered (series_lt (col RSI filtered) 50)
  else if (marital_status =? single)%string then
    getitem_mask filtered (series_ge (col RSI filtered) 50)
  else filtered.

(** Lines 43-48: the expected-return bracket. *)
Definition return_stage {E : Type} (filtered : DataFrame E)
  (expected_return : pynum) : DataFrame E :=
  if num_lt expected_return 5 then
    getitem_mask filtered (series_lt (col RSI filtered) 30)
  else if lit_le 5 expected_return && num_lt expected_return 10 then
    getitem_mask filtered (between (col RSI filtered) 30 70)
  else
    getitem_mask filtered (series_gt (col RSI filtered) 70).

(** The rows left after the three RSI blocks that follow the first one. *)
Definition narrow {E : Type} (filtered : DataFrame E) (asset_size : pynum)
  (marital_status : string) (expected_return : pynum) : DataFrame E :=
  return_stage (marital_stage (asset_stage filtered asset_size) marital_status)
               expected_return.

(** [filter_stocks(df, risk_preference, asset_size, marital_status,
    expected_return)] *)
Definition filter_stocks {E : Type} (df : DataFrame E)
  (risk_preference : string) (asset_size : pynum) (marital_status : string)
  (expected_return : pynum) : result (DataFrame unit) :=
  match risk_stage df risk_preference with
  | Raise e => Raise e
  | Ok filtered =>
      let filtered := asset_stage filtered asset_size in
      let filtered := marital_stage filtered marital_status in
      let filtered := return_stage filtered expected_return in
      Ok (drop_duplicates (map project filtered))
  end.

(** ** The rules in the words of the specification

    Row-wise predicates, one per rule of the specification's four stages.
    The theorems below compare the mask selections above with them. *)

Definition rsi_below_30 (x : float) : bool := (x <? lit 30)%float.
Definition rsi_30_to_70 (x : float) : bool :=
  (lit 30 <=? x)%float && (x <=? lit 70)%float.
Definition rsi_above_70 (x : float) : bool := (lit 70 <? x)%float.
Definition rsi_below_50 (x : float) : bool := (x <? lit 50)%float.
Definition rsi_at_least_50 (x : float) : bool := (lit 50 <=? x)%float.
Definition rsi_above_50 (x : float) : bool := (lit 50 <? x)%float.

Definition averse_rule {E : Type} (r : Row E) : bool :=
  (K r <? lit 30)%float && (D r <? lit 30)%float && (J r <? lit 30)%float
  && rsi_below_50 (RSI r).

Definition neutral_rule {E : Type} (r : Row E) : bool :=
  rsi_30_to_70 (K r) && rsi_30_to_70 (D r) && rsi_30_to_70 (J r)
  && rsi_30_to_70 (RSI r).

Definition seeking_rule {E : Type} (r : Row E) : bool :=
  (lit 70 <? K r)%float && (lit 70 <? D r)%float && (lit 70 <? J r)%float
  && rsi_above_50 (RSI r).

(** The risk preference is one of the three values the source tests for. *)
Definition recognized (risk_preference : string) : Prop :=
  risk_preference = risk_averse \/ risk_preference = risk_neutral
  \/ risk_preference = risk_seeking.

(** The RSI constraint of each stage, as the conjunction of the
    specification's bullet points for that stage. *)
Definition risk_constraint (risk_preference : string) (x : float) : Prop :=
  (risk_preference = risk_averse -> rsi_below_50 x = true)
  /\ (risk_preference = risk_neutral -> rsi_30_to_70 x = true)
  /\ (risk_preference = risk_seeking -> rsi_above_50 x = true).

Definition bracket_constraint (lo hi : Z) (v : pynum) (x : float) : Prop :=
  (num_lt v lo = true -> rsi_below_30 x = true)
  /\ (lit_le lo v = true -> num_lt v hi = true -> rsi_30_to_70 x = true)
  /\ (lit_le hi v = true -> rsi_above_70 x = true).

Definition asset_constraint (asset_size : pynum) (x : float) : Prop :=
  bracket_constraint 100000 1000000 asset_size x.

Definition marital_constraint (marital_status : string) (x : float) : Prop :=
  (marital_status = married -> rsi_below_50 x = true)
  /\ (marital_status = single -> rsi_at_least_50 x = true).

Definition return_constraint (expected_return : pynum) (x : float) : Prop :=
  bracket_constraint 5 10 expected_return x.

Definition all_constraints (risk_preference : string) (asset_size : pynum)
  (marital_status : string) (expected_return : pynum) (x : float) : Prop :=
  risk_constraint risk_preference x /\ asset_constraint asset_size x
  /\ marital_constraint marital_status x
  /\ return_constraint expected_return x.

(** ** The RSI blocks read row by row

    What the three blocks after the first one ask of the RSI of a single row,
    with the branch structure of the source: an [if]/[elif]/[else] ladder for
    the two brackets, and no [else] for the marital status. *)

Definition bracket_keep (lo hi : Z) (v : pynum) (x : float) : bool :=
  if num_lt v lo then rsi_below_30 x
  else if lit_le lo v && num_lt v hi then rsi_30_to_70 x
  else rsi_above_70 x.

Definition marital_keep (marital_status : string) (x : float) : bool :=
  if (marital_status =? married)%string then rsi_below_50 x
  else if (marital_status =? single)%string then rsi_at_least_50 x
  else true.

Definition rsi_keep (asset_size : pynum) (marital_status : string)
  (expected_return : pynum) (x : float) : bool :=
  bracket_keep 100000 1000000 asset_size x
  && marital_keep marital_status x
  && bracket_keep 5 10 expected_return x.

(** The first block read row by row: the test a row must pass under the
    given preference.  No row passes under a preference the block rejects. *)
Definition risk_rule {E : Type} (risk_preference : string) (r : Row E) : bool :=
  if (risk_preference =? risk_averse)%string then averse_rule r
  else if (risk_preference =? risk_neutral)%string then neutral_rule r
  else if (risk_preference =? risk_seeking)%string then seeking_rule r
  else false.

(** All four blocks read row by row. *)
Definition keep_row {E : Type} (risk_preference : string) (asset_size : pynum)
  (marital_status : string) (expected_return : pynum) (r : Row E) : bool :=
  risk_rule risk_preference r
  && rsi_keep asset_size marital_status expected_return (RSI r).

(** ** Which branch of a bracket ladder runs *)

Inductive bracket : Type := Low | Mid | High.

Definition bracket_of (lo hi : Z) (v : pynum) : bracket :=
  if num_lt v lo then Low
  else if lit_le lo v && num_lt v hi then Mid
  else High.

Definition asset_bracket (asset_size : pynum) : bracket :=
  bracket_of 100000 1000000 asset_size.

Definition return_bracket (expected_return : pynum) : bracket :=
  bracket_of 5 10 expected_return.

(** The profiles whose RSI tests exclude one another: the two ladders take
    different branches, or the branch taken, the risk preference and the
    marital status ask for disjoint RSI ranges. *)
Definition dead_profile (risk_preference : string) (asset_size : pynum)
  (marital_status : string) (expected_return : pynum) : Prop :=
  asset_bracket asset_size <> return_bracket expected_return
  \/ (risk_preference = risk_averse /\ asset_bracket asset_size = High)
  \/ (risk_preference = risk_neutral /\ asset_bracket asset_size <> Mid)
  \/ (risk_preference = risk_seeking /\ asset_bracket asset_size = Low)
  \/ (marital_status = married /\ asset_bracket asset_size = High)
  \/ (marital_status = single /\ asset_bracket asset_size = Low)
  \/ (risk_preference = risk_averse /\ marital_status = single)
  \/ (risk_preference = risk_seeking /\ marital_status = married).

(** ** [load_excel] and [main]

    [pd.read_excel] is the file system's answer for a path: a frame, a
    FileNotFoundError, or some other exception.  A loaded frame is taken to
    be well formed (the five columns present, the four indicators numeric);
    what [main] does on any other frame is outside the model.  The
    Streamlit calls of
    [main] are recorded in the order they are made.  The calls of lines
    55-100 build the page and the form and do not depend on the data; they
    are the list [page], whose entries [st_layout] stands for.  What the
    four widgets return is a [form]. *)

Inductive load_outcome (E : Type) : Type :=
| Loaded (df : DataFrame E)
| FileNotFoundError
| LoadFailed.

Arguments Loaded {E} df.
Arguments FileNotFoundError {E}.
Arguments LoadFailed {E}.

Definition load_excel {E : Type} (fs : string -> load_outcome E)
  (file_path : string) : load_outcome E :=
  fs file_path.

Record form : Type := mkForm {
  asset_size_input : Z;
  risk_preference_input : string;
  marital_status_input : string;
  expected_return_input : Z
}.

(** The options and bounds the widgets are declared with (lines 68-93). *)
Definition risk_options : list string :=
  [risk_averse; risk_neutral; risk_seeking].
Definition marital_options : list string := [married; single].

(** What Streamlit guarantees of the returned values: a number input stays
    within [min_value] and [max_value], a select box returns an option. *)
Definition form_valid (w : form) : Prop :=
  (1000 <= asset_size_input w <= 100000000)%Z
  /\ In (risk_preference_input w) risk_options
  /\ In (marital_status_input w) marital_options
  /\ (0 <= expected_return_input w <= 100)%Z.

(** The values the widgets start with: [value=100000], [index=1],
    [index=0], [value=5]. *)
Definition default_form : form :=
  mkForm 100000 (nth 1 risk_options "") (nth 0 marital_options "") 5.

Inductive st_call : Type :=
| st_layout (what : string)
| st_error (body : string)
| st_spinner (text : string)
| st_subheader (body : string)
| st_dataframe (data : DataFrame unit) (highlight_max_subset : list string)
               (color : string) (formats : list (string * string))
               (use_container_width : bool)
| st_columns (spec : Z)
| st_metric_len (label : string) (value : nat)
    (* the value is [len(result)] *)
| st_metric_mean (label : string) (column : list float)
    (* the value is the mean of [column], printed with two decimals *)
| st_warning (body : string).

Inductive outcome : Type :=
| Returned
| Propagated (e : exn)       (* an exception of [filter_stocks] *)
| PropagatedLoad.            (* an exception of [load_excel] not caught *)

Definition main {E : Type} (page : list st_call)
  (fs : string -> load_outcome E) (w : form) : list st_call * outcome :=
  match load_excel fs "all_stocks_predictions.xlsx" with
  | FileNotFoundError =>
      (page ++ [st_error "错误：股票数据文件未找到！"], Returned)
  | LoadFailed => (page, PropagatedLoad)
  | Loaded df =>
      match filter_stocks df (risk_preference_input w)
                          (PyInt (asset_size_input w))
                          (marital_status_input w)
                          (PyInt (expected_return_input w)) with
      | Raise e => (page ++ [st_spinner "正在筛选优质股票..."], Propagated e)
      | Ok result =>
          let shown := page ++ [st_spinner "正在筛选优质股票...";
                                st_subheader "推荐股票列表"] in
          match result with
          | _ :: _ =>
              (shown ++ [st_dataframe result ["RSI"] "#FF7043"
                           [("K", "{:.2f}"); ("D", "{:.2f}");
                            ("J", "{:.2f}"); ("RSI", "{:.2f}")] true;
                         st_columns 2;
                         st_metric_len "推荐股票数量" (List.length result);
                         st_metric_mean "平均RSI指标" (col RSI result)],
               Returned)
          | [] =>
              (shown ++ [st_warning "未找到符合条件的股票，请尝试调整筛选条件！"],
               Returned)
          end
      end
  end.

(** ** Sample sheets

    The scenarios of the specification and a sheet with repeated rows; the
    [other] column holds the name of the stock. *)

Definition sheet_A : DataFrame string :=
  [mkRow "001" 20 20 20 40 "alpha"].

Definition sheet_B : DataFrame string :=
  [mkRow "002" 50 50 50 50 "beta"].

Definition sheet_repeats : DataFrame string :=
  [mkRow "001" 20 20 20 20 "alpha";
   mkRow "003" 80 80 80 80 "gamma";
   mkRow "001" 20 20 20 20 "alpha again";
   mkRow "001" 10 20 20 20 "alpha";
   mkRow "001" 20 20 20 20 "alpha"].

(** The rows of [sheet_repeats] the averse selection keeps. *)
Definition sheet_repeats_averse : DataFrame string :=
  [mkRow "001" 20 20 20 20 "alpha";
   mkRow "001" 20 20 20 20 "alpha again";
   mkRow "001" 10 20 20 20 "alpha";
   mkRow "001" 20 20 20 20 "alpha"].

(** * Order facts on binary64 values

    The primitive comparisons are specified through [SFcompare] on the
    unpacked representation; the facts needed about it are proved there and
    carried back. *)

Module FloatOrder.

Lemma SFcompare_antisym x y :
  SFcompare y x = option_map CompOpp (SFcompare x y).
Proof.
  destruct x as [sx|sx| |sx mx ex], y as [sy|sy| |sy my ey]; simpl;
    try reflexivity;
    try (destruct sx; reflexivity); try (destruct sy; reflexivity);
    try (destruct sx, sy; reflexivity).
  destruct sx, sy; simpl; try reflexivity;
    rewrite (Z.compare_antisym ex ey); destruct (ex ?= ey)%Z; simpl;
    try reflexivity;
    change (Pos.compare_cont Eq) with Pos.compare;
    rewrite (Pos.compare_antisym mx my);
    destruct (mx ?= my)%positive; reflexivity.
Qed.

Lemma SFcompare_Eq_l x y z :
  SFcompare x y = Some Eq -> SFcompare x z = SFcompare y z.
Proof.
  destruct x as [sx|sx| |sx mx ex], y as [sy|sy| |sy my ey]; simpl;
    try discriminate; try (destruct sx; discriminate);
    try (destruct sy; discriminate).
  - intros _. destruct z; reflexivity.
  - destruct sx, sy; try discriminate; intros _; reflexivity.
  - change (Pos.compare_cont Eq) with Pos.compare.
    destruct sx, sy; try discriminate;
      destruct (Z.compare_spec ex ey); try discriminate;
      destruct (Pos.compare_spec mx my); try discriminate;
      intros _; subst; reflexivity.
Qed.

Lemma SFcompare_Eq_r x y z :
  SFcompare y z = Some Eq -> SFcompare x y = SFcompare x z.
Proof.
  intros H. rewrite (SFcompare_antisym y x), (SFcompare_antisym z x).
  f_equal. apply SFcompare_Eq_l. exact H.
Qed.

Lemma SFcompare_refl x : x <> S754_nan -> SFcompare x x = Some Eq.
Proof.
  destruct x as [s|s| |s m e]; simpl; intros H; try congruence.
  - destruct s; reflexivity.
  - change (Pos.compare_cont Eq) with Pos.compare.
    destruct s; rewrite Z.compare_refl, Pos.compare_refl; reflexivity.
Qed.

Lemma SFcompare_Lt_trans x y z :
  SFcompare x y = Some Lt -> SFcompare y z = Some Lt ->
  SFcompare x z = Some Lt.
Proof.
  destruct x as [sx|sx| |sx mx ex], y as [sy|sy| |sy my ey],
           z as [sz|sz| |sz mz ez];
    simpl; try discriminate;
    repeat match goal with s : bool |- _ => destruct s end; simpl;
    try discriminate; try reflexivity;
    change (Pos.compare_cont Eq) with Pos.compare;
    destruct (Z.compare_spec ex ey); try discriminate;
    destruct (Z.compare_spec ey ez); try discriminate;
    destruct (Z.compare_spec ex ez); try lia; try reflexivity; subst;
    destruct (Pos.compare_spec mx my); try discriminate;
    destruct (Pos.compare_spec my mz); try discriminate;
    destruct (Pos.compare_spec mx mz); try lia; try reflexivity; subst;
    try discriminate; try lia.
Qed.

(** The three-way outcome of a comparison, read off the two boolean tests. *)
Lemma ltb_Lt x y :
  (x <? y)%float = true <-> SFcompare (Prim2SF x) (Prim2SF y) = Some Lt.
Proof.
  rewrite ltb_spec. unfold SFltb.
  destruct (SFcompare _ _) as [[]|]; split; congruence.
Qed.

Lemma leb_Lt_Eq x y :
  (x <=? y)%float = true <->
  SFcompare (Prim2SF x) (Prim2SF y) = Some Lt
  \/ SFcompare (Prim2SF x) (Prim2SF y) = Some Eq.
Proof.
  rewrite leb_spec. unfold SFleb.
  destruct (SFcompare _ _) as [[]|]; split; intros H; auto;
    try discriminate; destruct H; discriminate.
Qed.

Lemma eqb_Eq x y :
  (x =? y)%float = true <-> SFcompare (Prim2SF x) (Prim2SF y) = Some Eq.
Proof.
  rewrite eqb_spec. unfold SFeqb.
  destruct (SFcompare _ _) as [[]|]; split; congruence.
Qed.

Lemma is_nan_spec x : PrimFloat.is_nan x = true <-> Prim2SF x = S754_nan.
Proof.
  unfold PrimFloat.is_nan. rewrite negb_true_iff. split.
  - intros H. destruct (Prim2SF x) eqn:Hx; try reflexivity;
      exfalso; apply not_true_iff_false in H; apply H, eqb_Eq;
      rewrite Hx; apply SFcompare_refl; discriminate.
  - intros H. apply not_true_iff_false. rewrite eqb_Eq, H. discriminate.
Qed.

Lemma ltb_leb_false x y : (x <? y)%float = true -> (y <=? x)%float = false.
Proof.
  rewrite ltb_Lt. intros H. apply not_true_iff_false. rewrite leb_Lt_Eq.
  rewrite (SFcompare_antisym (Prim2SF x) (Prim2SF y)), H. simpl.
  intros [?|?]; discriminate.
Qed.

Lemma leb_ltb_false x y : (x <=? y)%float = true -> (y <? x)%float = false.
Proof.
  intros H. apply not_true_iff_false. intros H'.
  apply ltb_leb_false in H'. congruence.
Qed.

Lemma ltb_trans x y z :
  (x <? y)%float = true -> (y <? z)%float = true -> (x <? z)%float = true.
Proof. rewrite !ltb_Lt. apply SFcompare_Lt_trans. Qed.

Lemma leb_ltb_trans x y z :
  (x <=? y)%float = true -> (y <? z)%float = true -> (x <? z)%float = true.
Proof.
  rewrite leb_Lt_Eq, !ltb_Lt. intros [H|H] Hyz.
  - eapply SFcompare_Lt_trans; eassumption.
  - rewrite (SFcompare_Eq_l _ _ _ H). exact Hyz.
Qed.

Lemma ltb_leb_trans x y z :
  (x <? y)%float = true -> (y <=? z)%float = true -> (x <? z)%float = true.
Proof.
  rewrite leb_Lt_Eq, !ltb_Lt. intros Hxy [H|H].
  - eapply SFcompare_Lt_trans; eassumption.
  - rewrite <- (SFcompare_Eq_r _ _ _ H). exact Hxy.
Qed.

(** A comparison that answers [true] has no NaN operand. *)
Lemma ltb_not_nan x y :
  (x <? y)%float = true ->
  PrimFloat.is_nan x = false /\ PrimFloat.is_nan y = false.
Proof.
  rewrite ltb_Lt. intros H.
  split; apply not_true_iff_false; rewrite is_nan_spec; intros Hn;
    rewrite Hn in H; simpl in H; try discriminate.
  destruct (Prim2SF x); discriminate.
Qed.

Lemma leb_not_nan x y :
  (x <=? y)%float = true ->
  PrimFloat.is_nan x = false /\ PrimFloat.is_nan y = false.
Proof.
  rewrite leb_Lt_Eq. intros H.
  split; apply not_true_iff_false; rewrite is_nan_spec; intros Hn;
    rewrite Hn in H; simpl in H.
  - destruct H; discriminate.
  - destruct (Prim2SF x); destruct H; discriminate.
Qed.

End FloatOrder.

(** * The label equality of [drop_duplicates] is an equivalence that the
      comparisons respect *)

Module FloatSame.
Import FloatOrder.

Lemma float_same_spec x y :
  float_same x y = true <->
  SFcompare (Prim2SF x) (Prim2SF y) = Some Eq
  \/ (Prim2SF x = S754_nan /\ Prim2SF y = S754_nan).
Proof.
  unfold float_same.
  rewrite orb_true_iff, andb_true_iff, eqb_Eq, !is_nan_spec. reflexivity.
Qed.

Lemma float_same_refl x : float_same x x = true.
Proof.
  unfold float_same, PrimFloat.is_nan.
  destruct (x =? x)%float; reflexivity.
Qed.

Lemma float_same_sym x y : float_same x y = true -> float_same y x = true.
Proof.
  rewrite !float_same_spec. intros [H|[H1 H2]]; [left|right; auto].
  rewrite (SFcompare_antisym (Prim2SF x) (Prim2SF y)), H. reflexivity.
Qed.

(** Cells with the same label compare alike against any third value. *)
Lemma float_same_compare_l x y z :
  float_same x y = true ->
  SFcompare (Prim2SF x) z = SFcompare (Prim2SF y) z.
Proof.
  rewrite float_same_spec. intros [H|[H1 H2]].
  - apply SFcompare_Eq_l, H.
  - rewrite H1, H2. reflexivity.
Qed.

Lemma float_same_compare_r x y z :
  float_same x y = true ->
  SFcompare z (Prim2SF x) = SFcompare z (Prim2SF y).
Proof.
  intros H.
  rewrite (SFcompare_antisym (Prim2SF x) z), (SFcompare_antisym (Prim2SF y) z).
  f_equal. apply float_same_compare_l, H.
Qed.

Lemma float_same_trans x y z :
  float_same x y = true -> float_same y z = true -> float_same x z = true.
Proof.
  intros Hxy Hyz. apply float_same_spec.
  rewrite (float_same_compare_l x y _ Hxy).
  apply float_same_spec in Hyz. destruct Hyz as [H|[H1 H2]]; [left; exact H|].
  right. split; [|exact H2].
  apply float_same_spec in Hxy. destruct Hxy as [H|[H3 _]]; [|exact H3].
  rewrite H1 in H. destruct (Prim2SF x); discriminate.
Qed.

Lemma float_same_ltb_l x y c :
  float_same x y = true -> (x <? c)%float = (y <? c)%float.
Proof.
  intros H. rewrite !ltb_spec. unfold SFltb.
  rewrite (float_same_compare_l x y _ H). reflexivity.
Qed.

Lemma float_same_ltb_r x y c :
  float_same x y = true -> (c <? x)%float = (c <? y)%float.
Proof.
  intros H. rewrite !ltb_spec. unfold SFltb.
  rewrite (float_same_compare_r x y _ H). reflexivity.
Qed.

Lemma float_same_leb_l x y c :
  float_same x y = true -> (x <=? c)%float = (y <=? c)%float.
Proof.
  intros H. rewrite !leb_spec. unfold SFleb.
  rewrite (float_same_compare_l x y _ H). reflexivity.
Qed.

Lemma float_same_leb_r x y c :
  float_same x y = true -> (c <=? x)%float = (c <=? y)%float.
Proof.
  intros H. rewrite !leb_spec. unfold SFleb.
  rewrite (float_same_compare_r x y _ H). reflexivity.
Qed.

(** Without NaN the label equality is the numeric one. *)
Lemma float_same_eqb x y :
  PrimFloat.is_nan x = false -> float_same x y = (x =? y)%float.
Proof.
  intros H. unfold float_same. rewrite H. simpl. apply orb_false_r.
Qed.

Lemma row_same_refl r : row_same r r = true.
Proof.
  unfold row_same. rewrite String.eqb_refl, !float_same_refl. reflexivity.
Qed.

Lemma row_same_fields a b :
  row_same a b = true <->
  code a = code b /\ float_same (K a) (K b) = true
  /\ float_same (D a) (D b) = true /\ float_same (J a) (J b) = true
  /\ float_same (RSI a) (RSI b) = true.
Proof.
  unfold row_same. rewrite !andb_true_iff, String.eqb_eq. tauto.
Qed.

Lemma row_same_sym a b : row_same a b = true -> row_same b a = true.
Proof.
  rewrite !row_same_fields. intros (Hc & HK & HD & HJ & HR).
  repeat split; auto using float_same_sym.
Qed.

Lemma row_same_trans a b c :
  row_same a b = true -> row_same b c = true -> row_same a c = true.
Proof.
  rewrite !row_same_fields.
  intros (Hc & HK & HD & HJ & HR) (Hc' & HK' & HD' & HJ' & HR').
  repeat split; try congruence; eapply float_same_trans; eassumption.
Qed.

(** Rows with the same label have the same matches in any list. *)
Lemma existsb_row_same a b seen :
  row_same a b = true ->
  existsb (row_same a) seen = existsb (row_same b) seen.
Proof.
  intros H. induction seen as [|s seen IH]; simpl; [reflexivity|].
  rewrite IH. f_equal.
  destruct (row_same a s) eqn:Ha, (row_same b s) eqn:Hb; try reflexivity.
  - rewrite <- Hb. symmetry.
    apply (row_same_trans b a s); [apply row_same_sym, H|exact Ha].
  - rewrite <- Ha. apply (row_same_trans a b s); assumption.
Qed.

End FloatSame.

(** * Mask selection is row-wise filtering *)

Section Masks.
Context {A : Type}.

Lemma getitem_mask_map (p : A -> bool) (l : list A) :
  getitem_mask l (map p l) = filter p l.
Proof.
  induction l as [|x l IH]; simpl; [reflexivity|].
  rewrite IH. reflexivity.
Qed.

Lemma mask_and_map (p q : A -> bool) (l : list A) :
  mask_and (map p l) (map q l) = map (fun x => p x && q x) l.
Proof.
  unfold mask_and. induction l as [|x l IH]; simpl; [reflexivity|].
  rewrite IH. reflexivity.
Qed.

Lemma select_and (p q : A -> bool) (l : list A) :
  getitem_mask l (mask_and (map p l) (map q l))
  = filter (fun x => p x && q x) l.
Proof. rewrite mask_and_map. apply getitem_mask_map. Qed.

End Masks.

Section Stages.
Context {E : Type}.
Implicit Types (df filtered : DataFrame E) (r : Row E).

Lemma series_lt_col (f : Row E -> float) c df :
  series_lt (col f df) c = map (fun r => (f r <? lit c)%float) df.
Proof. unfold series_lt, col. apply map_map. Qed.

Lemma series_gt_col (f : Row E -> float) c df :
  series_gt (col f df) c = map (fun r => (lit c <? f r)%float) df.
Proof. unfold series_gt, col. apply map_map. Qed.

Lemma series_ge_col (f : Row E -> float) c df :
  series_ge (col f df) c = map (fun r => (lit c <=? f r)%float) df.
Proof. unfold series_ge, col. apply map_map. Qed.

Lemma series_le_col (f : Row E -> float) c df :
  series_le (col f df) c = map (fun r => (f r <=? lit c)%float) df.
Proof. unfold series_le, col. apply map_map. Qed.

Lemma between_col (f : Row E -> float) l h df :
  between (col f df) l h
  = map (fun r => (lit l <=? f r)%float && (f r <=? lit h)%float) df.
Proof.
  unfold between. rewrite series_ge_col, series_le_col. apply mask_and_map.
Qed.

Lemma risk_stage_averse df :
  risk_stage df risk_averse = Ok (filter averse_rule df).
Proof.
  unfold risk_stage. rewrite String.eqb_refl.
  rewrite !series_lt_col, !mask_and_map, getitem_mask_map. reflexivity.
Qed.

Lemma risk_stage_neutral df :
  risk_stage df risk_neutral = Ok (filter neutral_rule df).
Proof.
  unfold risk_stage.
  change (risk_neutral =? risk_averse)%string with false.
  rewrite String.eqb_refl.
  rewrite !between_col, !mask_and_map, getitem_mask_map. reflexivity.
Qed.

Lemma risk_stage_seeking df :
  risk_stage df risk_seeking = Ok (filter seeking_rule df).
Proof.
  unfold risk_stage.
  change (risk_seeking =? risk_averse)%string with false.
  change (risk_seeking =? risk_neutral)%string with false.
  rewrite String.eqb_refl.
  rewrite !series_gt_col, !mask_and_map, getitem_mask_map. reflexivity.
Qed.

Lemma risk_stage_unrecognized df rp :
  ~ recognized rp -> risk_stage df rp = Raise risk_error.
Proof.
  unfold recognized, risk_stage. intros H.
  destruct (String.eqb_spec rp risk_averse); [tauto|].
  destruct (String.eqb_spec rp risk_neutral); [tauto|].
  destruct (String.eqb_spec rp risk_seeking); [tauto|]. reflexivity.
Qed.

End Stages.

Section Brackets.
Import FloatOrder.

(** A value at or above the upper literal fails both earlier tests of the
    ladder, so it reaches the [else] branch. *)
Lemma ladder_top (lo hi : Z) (v : pynum) :
  (lo < hi)%Z -> (lit lo <? lit hi)%float = true ->
  lit_le hi v = true -> num_lt v lo = false /\ num_lt v hi = false.
Proof.
  intros Hz Hf. destruct v as [z|f]; simpl; intros H.
  - apply Z.leb_le in H. split; apply Z.ltb_ge; lia.
  - split; apply not_true_iff_false; intros H'.
    + apply (ltb_trans _ _ _ H') in Hf. apply ltb_leb_false in Hf. congruence.
    + apply ltb_leb_false in H'. congruence.
Qed.

(** A value at or below zero passes the first test of either ladder. *)
Lemma ladder_nonpositive_int (lo : Z) (z : Z) :
  (0 < lo)%Z -> (z <= 0)%Z -> num_lt (PyInt z) lo = true.
Proof. intros H0 Hz. simpl. apply Z.ltb_lt. lia. Qed.

Lemma ladder_nonpositive_float (lo : Z) (f : float) :
  (lit 0 <? lit lo)%float = true -> (f <=? lit 0)%float = true ->
  num_lt (PyFloat f) lo = true.
Proof. intros H0 Hf. simpl. eapply leb_ltb_trans; eassumption. Qed.

Context {E : Type}.
Implicit Types (filtered : DataFrame E).

Lemma asset_stage_filter filtered asset_size :
  asset_stage filtered asset_size
  = filter (fun r => bracket_keep 100000 1000000 asset_size (RSI r)) filtered.
Proof.
  unfold asset_stage, bracket_keep.
  destruct (num_lt asset_size 100000).
  - rewrite series_lt_col. apply getitem_mask_map.
  - destruct (lit_le 100000 asset_size && num_lt asset_size 1000000).
    + rewrite between_col. apply getitem_mask_map.
    + rewrite series_gt_col. apply getitem_mask_map.
Qed.

Lemma return_stage_filter filtered expected_return :
  return_stage filtered expected_return
  = filter (fun r => bracket_keep 5 10 expected_return (RSI r)) filtered.
Proof.
  unfold return_stage, bracket_keep.
  destruct (num_lt expected_return 5).
  - rewrite series_lt_col. apply getitem_mask_map.
  - destruct (lit_le 5 expected_return && num_lt expected_return 10).
    + rewrite between_col. apply getitem_mask_map.
    + rewrite series_gt_col. apply getitem_mask_map.
Qed.

Lemma filter_true (l : list (Row E)) : filter (fun _ => true) l = l.
Proof. induction l as [|x l IH]; simpl; congruence. Qed.

Lemma marital_stage_filter filtered marital_status :
  marital_stage filtered marital_status
  = filter (fun r => marital_keep marital_status (RSI r)) filtered.
Proof.
  unfold marital_stage, marital_keep.
  destruct (marital_status =? married)%string.
  - rewrite series_lt_col. apply getitem_mask_map.
  - destruct (marital_status =? single)%string.
    + rewrite series_ge_col. apply getitem_mask_map.
    + symmetry. apply filter_true.
Qed.

Lemma filter_filter (p q : Row E -> bool) (l : list (Row E)) :
  filter q (filter p l) = filter (fun r => p r && q r) l.
Proof.
  induction l as [|x l IH]; simpl; [reflexivity|].
  destruct (p x); simpl; [destruct (q x)|]; rewrite IH; reflexivity.
Qed.

Lemma narrow_filter filtered asset_size marital_status expected_return :
  narrow filtered asset_size marital_status expected_return
  = filter (fun r => rsi_keep asset_size marital_status expected_return (RSI r))
           filtered.
Proof.
  unfold narrow.
  rewrite asset_stage_filter, marital_stage_filter, return_stage_filter.
  rewrite !filter_filter. apply filter_ext. intros r.
  unfold rsi_keep. apply andb_assoc.
Qed.

(** The function is its first block followed by [narrow], the projection and
    [drop_duplicates]. *)
Lemma filter_stocks_stages (df : DataFrame E) rp a m e s1 :
  risk_stage df rp = Ok s1 ->
  filter_stocks df rp a m e
  = Ok (drop_duplicates (map project (narrow s1 a m e))).
Proof. intros H. unfold filter_stocks. rewrite H. reflexivity. Qed.

Lemma risk_stage_recognized (df : DataFrame E) rp :
  recognized rp ->
  exists rule, (rule = averse_rule \/ rule = neutral_rule \/ rule = seeking_rule)
               /\ risk_stage df rp = Ok (filter rule df).
Proof.
  intros [->|[->| ->]].
  - exists averse_rule. split; [auto|apply risk_stage_averse].
  - exists neutral_rule. split; [auto|apply risk_stage_neutral].
  - exists seeking_rule. split; [auto|apply risk_stage_seeking].
Qed.

End Brackets.

(** * drop_duplicates keeps the first row of every label class *)

Section Dedup.
Import FloatSame.

(** The selection [rows[-duplicated]] when the scan starts from [seen]. *)
Local Abbreviation dd seen rows :=
  (getitem_mask rows (map negb (duplicated_from seen rows))).

Lemma dd_cons seen r rest :
  dd seen (r :: rest)
  = if existsb (row_same r) seen then dd (r :: seen) rest
    else r :: dd (r :: seen) rest.
Proof. simpl. destruct (existsb (row_same r) seen); reflexivity. Qed.

Lemma dd_app seen l1 l2 :
  dd seen (l1 ++ l2) = dd seen l1 ++ dd (rev l1 ++ seen) l2.
Proof.
  revert seen. induction l1 as [|x l1 IH]; intros seen; [reflexivity|].
  rewrite <- app_comm_cons, !dd_cons, IH. simpl rev. rewrite <- app_assoc.
  simpl. destruct (existsb (row_same x) seen); reflexivity.
Qed.

Lemma dd_In seen l r :
  In r (dd seen l) -> In r l /\ existsb (row_same r) seen = false.
Proof.
  revert seen. induction l as [|x l IH]; intros seen; [simpl; tauto|].
  rewrite dd_cons. destruct (existsb (row_same x) seen) eqn:Hx.
  - intros H. apply IH in H. destruct H as [H1 H2]. simpl in H2.
    apply orb_false_iff in H2. split; [right; exact H1|tauto].
  - intros [<-|H]; [split; [left; reflexivity|exact Hx]|].
    apply IH in H. destruct H as [H1 H2]. simpl in H2.
    apply orb_false_iff in H2. split; [right; exact H1|tauto].
Qed.

(** Every label class met in the scan is represented exactly once, unless it
    was seen before the scan started. *)
Lemma dd_count seen l r :
  List.length (filter (row_same r) (dd seen l))
  = if existsb (row_same r) seen then 0
    else if existsb (row_same r) l then 1 else 0.
Proof.
  revert seen. induction l as [|x l IH]; intros seen.
  - simpl. destruct (existsb (row_same r) seen); reflexivity.
  - rewrite dd_cons. destruct (row_same r x) eqn:Hrx.
    + rewrite (existsb_row_same r x seen Hrx).
      destruct (existsb (row_same x) seen) eqn:Hx.
      * rewrite IH. simpl. rewrite Hrx. reflexivity.
      * simpl. rewrite Hrx. simpl. rewrite IH. simpl. rewrite Hrx.
        reflexivity.
    + assert (Hl : existsb (row_same r) (x :: l) = existsb (row_same r) l)
        by (simpl; rewrite Hrx; reflexivity).
      rewrite Hl.
      destruct (existsb (row_same x) seen).
      * rewrite IH. simpl. rewrite Hrx. reflexivity.
      * simpl. rewrite Hrx. rewrite IH. simpl. rewrite Hrx. reflexivity.
Qed.

(** A row-wise test that cannot tell rows of one label class apart commutes
    with the scan. *)
Lemma existsb_filter_respect (q : Row unit -> bool) x seen :
  (forall a b, row_same a b = true -> q a = q b) -> q x = true ->
  existsb (row_same x) (filter q seen) = existsb (row_same x) seen.
Proof.
  intros Hq Hx. induction seen as [|s seen IH]; [reflexivity|].
  simpl. destruct (q s) eqn:Hs; simpl; rewrite IH; [reflexivity|].
  destruct (row_same x s) eqn:Hxs; [|reflexivity].
  apply Hq in Hxs. congruence.
Qed.

Lemma dd_filter (q : Row unit -> bool) seen l :
  (forall a b, row_same a b = true -> q a = q b) ->
  dd (filter q seen) (filter q l) = filter q (dd seen l).
Proof.
  intros Hq. revert seen. induction l as [|x l IH]; intros seen;
    [reflexivity|].
  rewrite dd_cons. specialize (IH (x :: seen)).
  cbn [filter] in IH |- *. destruct (q x) eqn:Hx.
  - rewrite dd_cons, (existsb_filter_respect q x seen Hq Hx), IH.
    destruct (existsb (row_same x) seen); [reflexivity|].
    cbn [filter]. rewrite Hx. reflexivity.
  - rewrite IH. destruct (existsb (row_same x) seen); [reflexivity|].
    cbn [filter]. rewrite Hx. reflexivity.
Qed.

Lemma existsb_reversed (f : Row unit -> bool) l :
  existsb f (rev l) = existsb f l.
Proof.
  induction l as [|x l IH]; [reflexivity|].
  simpl. rewrite existsb_app, IH. simpl. rewrite orb_false_r. apply orb_comm.
Qed.

Lemma drop_duplicates_In l r : In r (drop_duplicates l) -> In r l.
Proof. intros H. apply (dd_In [] l r H). Qed.

Lemma drop_duplicates_nil : drop_duplicates [] = [].
Proof. reflexivity. Qed.

Lemma drop_duplicates_count l r :
  List.length (filter (row_same r) (drop_duplicates l))
  = if existsb (row_same r) l then 1 else 0.
Proof. apply (dd_count [] l r). Qed.

Lemma drop_duplicates_first l1 r l2 :
  existsb (row_same r) l1 = false ->
  exists rest, drop_duplicates (l1 ++ r :: l2) = drop_duplicates l1 ++ r :: rest.
Proof.
  intros H. unfold drop_duplicates, duplicated.
  rewrite dd_app, dd_cons, app_nil_r, existsb_reversed, H. eexists. reflexivity.
Qed.

Lemma drop_duplicates_filter (q : Row unit -> bool) l :
  (forall a b, row_same a b = true -> q a = q b) ->
  drop_duplicates (filter q l) = filter q (drop_duplicates l).
Proof. intros Hq. apply (dd_filter q [] l Hq). Qed.

(** A row of the scanned list has a representative in the result. *)
Lemma drop_duplicates_represents l r :
  In r l ->
  exists r', In r' (drop_duplicates l) /\ row_same r r' = true.
Proof.
  intros Hin.
  assert (Hc : List.length (filter (row_same r) (drop_duplicates l)) = 1).
  { rewrite drop_duplicates_count.
    replace (existsb (row_same r) l) with true; [reflexivity|].
    symmetry. apply existsb_exists. exists r. split; [exact Hin|].
    apply row_same_refl. }
  destruct (filter (row_same r) (drop_duplicates l)) as [|r' t] eqn:Hf;
    [discriminate|].
  exists r'. apply filter_In. rewrite Hf. left. reflexivity.
Qed.

End Dedup.

(** * From the row-wise reading to the constraints of the specification *)

Section Constraints.
Import FloatOrder.

Lemma lit_le_not_lt (lo : Z) (v : pynum) :
  lit_le lo v = true -> num_lt v lo = false.
Proof.
  destruct v as [z|f]; simpl; intros H.
  - apply Z.leb_le in H. apply Z.ltb_ge. exact H.
  - apply leb_ltb_false, H.
Qed.

Lemma bracket_keep_constraint (lo hi : Z) (v : pynum) (x : float) :
  (lo < hi)%Z -> (lit lo <? lit hi)%float = true ->
  bracket_keep lo hi v x = true -> bracket_constraint lo hi v x.
Proof.
  intros Hz Hf Hk. unfold bracket_keep in Hk. repeat split.
  - intros H. rewrite H in Hk. exact Hk.
  - intros H1 H2. rewrite (lit_le_not_lt lo v H1), H1, H2 in Hk. exact Hk.
  - intros H. destruct (ladder_top lo hi v Hz Hf H) as [H1 H2].
    rewrite H1, H2, andb_false_r in Hk. exact Hk.
Qed.

Lemma marital_keep_constraint (m : string) (x : float) :
  marital_keep m x = true -> marital_constraint m x.
Proof.
  unfold marital_keep, marital_constraint. intros Hk. split; intros ->.
  - rewrite String.eqb_refl in Hk. exact Hk.
  - change (single =? married)%string with false in Hk.
    rewrite String.eqb_refl in Hk. exact Hk.
Qed.

Lemma rsi_keep_constraints a m e x :
  rsi_keep a m e x = true ->
  asset_constraint a x /\ marital_constraint m x /\ return_constraint e x.
Proof.
  unfold rsi_keep. rewrite !andb_true_iff. intros [[Ha Hm] He].
  split; [|split].
  - apply bracket_keep_constraint; [lia|reflexivity|exact Ha].
  - apply marital_keep_constraint, Hm.
  - apply bracket_keep_constraint; [lia|reflexivity|exact He].
Qed.

Context {E : Type}.

(** The rows the first block keeps meet the RSI bound of the preference. *)
Lemma risk_stage_constraint (df : DataFrame E) rp s1 row :
  risk_stage df rp = Ok s1 -> In row s1 ->
  In row df /\ risk_constraint rp (RSI row).
Proof.
  unfold risk_stage, risk_constraint.
  destruct (String.eqb_spec rp risk_averse) as [->|Ha].
  { rewrite !series_lt_col, !mask_and_map, getitem_mask_map.
    intros [= <-] H. apply filter_In in H. destruct H as [Hin H].
    apply andb_true_iff in H. destruct H as [_ H].
    repeat split; try discriminate; auto. }
  destruct (String.eqb_spec rp risk_neutral) as [->|Hn].
  { rewrite !between_col, !mask_and_map, getitem_mask_map.
    intros [= <-] H. apply filter_In in H. destruct H as [Hin H].
    apply andb_true_iff in H. destruct H as [_ H].
    repeat split; try discriminate; auto. }
  destruct (String.eqb_spec rp risk_seeking) as [->|Hs].
  { rewrite !series_gt_col, !mask_and_map, getitem_mask_map.
    intros [= <-] H. apply filter_In in H. destruct H as [Hin H].
    apply andb_true_iff in H. destruct H as [_ H].
    repeat split; try discriminate; auto. }
  discriminate.
Qed.

Lemma risk_stage_Ok (df : DataFrame E) rp :
  recognized rp -> exists s1, risk_stage df rp = Ok s1.
Proof.
  intros H. destruct (risk_stage_recognized df rp H) as (rule & _ & Hr).
  eauto.
Qed.

Lemma risk_stage_Ok_recognized (df : DataFrame E) rp s1 :
  risk_stage df rp = Ok s1 -> recognized rp.
Proof.
  unfold risk_stage, recognized.
  destruct (String.eqb_spec rp risk_averse); [auto|].
  destruct (String.eqb_spec rp risk_neutral); [auto|].
  destruct (String.eqb_spec rp risk_seeking); [auto|]. discriminate.
Qed.

(** Where a row of the result comes from. *)
Lemma filter_stocks_row (df : DataFrame E) rp a m e s1 out r :
  risk_stage df rp = Ok s1 -> filter_stocks df rp a m e = Ok out ->
  In r out ->
  exists row, In row s1 /\ rsi_keep a m e (RSI row) = true /\ r = project row.
Proof.
  intros H1 Hf Hr. rewrite (filter_stocks_stages df rp a m e s1 H1) in Hf.
  injection Hf as <-. apply drop_duplicates_In in Hr.
  apply in_map_iff in Hr. destruct Hr as (row & <- & Hrow).
  rewrite narrow_filter in Hrow. apply filter_In in Hrow.
  exists row. tauto.
Qed.

End Constraints.

(** * Facts about the surviving rows *)

Section Survivors.
Import FloatOrder FloatSame.
Context {E : Type}.

(** The first block compares every indicator, so no NaN gets through. *)
Lemma risk_stage_no_nan (df : DataFrame E) rp s1 row :
  risk_stage df rp = Ok s1 -> In row s1 ->
  PrimFloat.is_nan (K row) = false /\ PrimFloat.is_nan (D row) = false
  /\ PrimFloat.is_nan (J row) = false /\ PrimFloat.is_nan (RSI row) = false.
Proof.
  unfold risk_stage.
  destruct (String.eqb_spec rp risk_averse) as [->|Ha].
  { rewrite !series_lt_col, !mask_and_map, getitem_mask_map.
    intros [= <-] H. apply filter_In in H. destruct H as [_ H].
    rewrite !andb_true_iff in H. destruct H as [[[H1 H2] H3] H4].
    repeat split;
      [apply (proj1 (ltb_not_nan _ _ H1))|apply (proj1 (ltb_not_nan _ _ H2))
      |apply (proj1 (ltb_not_nan _ _ H3))|apply (proj1 (ltb_not_nan _ _ H4))]. }
  destruct (String.eqb_spec rp risk_neutral) as [->|Hn].
  { rewrite !between_col, !mask_and_map, getitem_mask_map.
    intros [= <-] H. apply filter_In in H. destruct H as [_ H].
    rewrite !andb_true_iff in H.
    destruct H as [[[[H1 _] [H2 _]] [H3 _]] [H4 _]].
    repeat split;
      [apply (proj2 (leb_not_nan _ _ H1))|apply (proj2 (leb_not_nan _ _ H2))
      |apply (proj2 (leb_not_nan _ _ H3))|apply (proj2 (leb_not_nan _ _ H4))]. }
  destruct (String.eqb_spec rp risk_seeking) as [->|Hs].
  { rewrite !series_gt_col, !mask_and_map, getitem_mask_map.
    intros [= <-] H. apply filter_In in H. destruct H as [_ H].
    rewrite !andb_true_iff in H. destruct H as [[[H1 H2] H3] H4].
    repeat split;
      [apply (proj2 (ltb_not_nan _ _ H1))|apply (proj2 (ltb_not_nan _ _ H2))
      |apply (proj2 (ltb_not_nan _ _ H3))|apply (proj2 (ltb_not_nan _ _ H4))]. }
  discriminate.
Qed.

(** The RSI blocks cannot tell two cells with the same label apart. *)
Lemma rsi_keep_respects a m e x y :
  float_same x y = true -> rsi_keep a m e x = rsi_keep a m e y.
Proof.
  intros H.
  unfold rsi_keep, bracket_keep, marital_keep, rsi_below_30, rsi_30_to_70,
    rsi_above_70, rsi_below_50, rsi_at_least_50.
  repeat rewrite (float_same_ltb_l x y _ H).
  repeat rewrite (float_same_ltb_r x y _ H).
  repeat rewrite (float_same_leb_l x y _ H).
  repeat rewrite (float_same_leb_r x y _ H).
  reflexivity.
Qed.

Lemma project_filter (g : float -> bool) (l : DataFrame E) :
  map project (filter (fun row => g (RSI row)) l)
  = filter (fun r => g (RSI r)) (map project l).
Proof.
  induction l as [|x l IH]; [reflexivity|].
  simpl. destruct (g (RSI x)); simpl; rewrite IH; reflexivity.
Qed.

(** Projection and [drop_duplicates] can be done before the RSI blocks. *)
Lemma dedup_before_narrow (s1 : DataFrame E) a m e :
  drop_duplicates (map project (narrow s1 a m e))
  = filter (fun r => rsi_keep a m e (RSI r))
           (drop_duplicates (map project s1)).
Proof.
  rewrite narrow_filter, (project_filter (rsi_keep a m e)).
  apply drop_duplicates_filter.
  intros r1 r2 H. apply rsi_keep_respects.
  apply row_same_fields in H. tauto.
Qed.

Lemma narrow_In (s1 : DataFrame E) a m e row :
  In row (narrow s1 a m e) -> In row s1.
Proof. rewrite narrow_filter. intros H. apply filter_In in H. tauto. Qed.

(** Two surviving rows that differ in the value of an indicator carry
    different labels. *)
Lemma survivors_differ (df : DataFrame E) rp s1 (row1 row2 : Row E) :
  risk_stage df rp = Ok s1 -> In row1 s1 ->
  (K row1 =? K row2)%float = false \/ (D row1 =? D row2)%float = false
  \/ (J row1 =? J row2)%float = false
  \/ (RSI row1 =? RSI row2)%float = false ->
  row_same (project row1) (project row2) = false.
Proof.
  intros H1 Hin Hd.
  destruct (risk_stage_no_nan df rp s1 row1 H1 Hin) as (NK & ND & NJ & NR).
  apply not_true_iff_false. rewrite row_same_fields. simpl.
  rewrite (float_same_eqb _ _ NK), (float_same_eqb _ _ ND),
    (float_same_eqb _ _ NJ), (float_same_eqb _ _ NR).
  intros (_ & HK & HD & HJ & HR).
  destruct Hd as [Hd|[Hd|[Hd|Hd]]]; congruence.
Qed.

Lemma filter_none {A : Type} (q : A -> bool) (l : list A) :
  (forall x, In x l -> q x = false) -> filter q l = [].
Proof.
  induction l as [|x l IH]; intros H; [reflexivity|].
  simpl. rewrite (H x (or_introl eq_refl)). apply IH.
  intros y Hy. apply H. right. exact Hy.
Qed.

End Survivors.

(** * The function on concrete sheets *)

(** Scenario A of the specification: the row passes the averse selection and
    is removed by the asset-size bracket. *)
Example scenario_A :
  filter_stocks sheet_A risk_averse (PyInt 50000) married (PyInt 3) = Ok [].
Proof. reflexivity. Qed.

(** Scenario B: the row passes all four blocks. *)
Example scenario_B :
  filter_stocks sheet_B risk_neutral (PyInt 500000) single (PyInt 7)
  = Ok [mkRow "002" 50 50 50 50 tt].
Proof. reflexivity. Qed.

(** Scenario C: the empty sheet. *)
Example scenario_C :
  filter_stocks (@nil (Row string)) risk_seeking (PyInt 2000000) single
                (PyInt 12) = Ok [].
Proof. reflexivity. Qed.

(** An unknown preference raises, also on the empty sheet. *)
Example unknown_preference :
  filter_stocks sheet_B "unknown" (PyInt 500000) single (PyInt 7)
  = Raise risk_error
  /\ filter_stocks (@nil (Row string)) "unknown" (PyInt 500000) single
                   (PyInt 7) = Raise risk_error.
Proof. split; reflexivity. Qed.

(** A missing indicator (NaN) fails every comparison. *)
Example nan_row_is_dropped :
  filter_stocks [mkRow "004" PrimFloat.nan 20 20 20 tt] risk_averse
                (PyInt 50000) married (PyInt 3) = Ok [].
Proof. reflexivity. Qed.

(** The two zeros are one value for [drop_duplicates]; the first row met is
    the one kept. *)
Example signed_zero_rows_collapse :
  filter_stocks [mkRow "005" (-0)%float 20 20 20 tt; mkRow "005" 0 20 20 20 tt]
                risk_averse (PyInt 50000) married (PyInt 3)
  = Ok [mkRow "005" (-0)%float 20 20 20 tt].
Proof. reflexivity. Qed.

(** * The claims *)

(** C1. For every table and every profile with a recognized risk preference,
    [filter_stocks] returns a table, and every row of it is a row of the
    input table projected onto the five output columns. *)
Theorem output_rows_come_from_input {E : Type} (df : DataFrame E)
  (risk_preference : string) (asset_size : pynum) (marital_status : string)
  (expected_return : pynum) :
  recognized risk_preference ->
  exists out,
    filter_stocks df risk_preference asset_size marital_status expected_return
    = Ok out
    /\ forall r, In r out -> exists row, In row df /\ r = project row.
Proof.
  intros Hrec. destruct (risk_stage_Ok df risk_preference Hrec) as [s1 H1].
  eexists. split; [apply (filter_stocks_stages _ _ _ _ _ _ H1)|].
  intros r Hr.
  destruct (filter_stocks_row df _ asset_size marital_status expected_return
              s1 _ r H1 (filter_stocks_stages _ _ _ _ _ _ H1) Hr)
    as (row & Hrow & _ & ->).
  exists row. split; [|reflexivity].
  apply (risk_stage_constraint df risk_preference s1 row H1 Hrow).
Qed.

Lemma output_rows_come_from_input_witness :
  recognized risk_neutral
  /\ exists out,
       filter_stocks sheet_B risk_neutral (PyInt 500000) single (PyInt 7)
       = Ok out
       /\ forall r, In r out -> exists row, In row sheet_B /\ r = project row.
Proof.
  split.
  - right. left. reflexivity.
  - apply (output_rows_come_from_input sheet_B risk_neutral (PyInt 500000)
             single (PyInt 7)).
    right. left. reflexivity.
Defined.

(** C2. For every table and every profile with a recognized risk preference,
    the RSI of every output row satisfies the RSI constraints of all four
    stages at once; when no RSI value can satisfy them all, the result is the
    empty table, returned normally. *)
Theorem output_rsi_meets_all_stages {E : Type} (df : DataFrame E)
  (risk_preference : string) (asset_size : pynum) (marital_status : string)
  (expected_return : pynum) :
  recognized risk_preference ->
  exists out,
    filter_stocks df risk_preference asset_size marital_status expected_return
    = Ok out
    /\ (forall r, In r out ->
          all_constraints risk_preference asset_size marital_status
                          expected_return (RSI r))
    /\ ((forall x, ~ all_constraints risk_preference asset_size
                     marital_status expected_return x) -> out = []).
Proof.
  intros Hrec. destruct (risk_stage_Ok df risk_preference Hrec) as [s1 H1].
  pose proof (filter_stocks_stages df risk_preference asset_size
                marital_status expected_return s1 H1) as Hf.
  eexists. split; [exact Hf|].
  assert (Hall : forall r,
             In r (drop_duplicates
                     (map project (narrow s1 asset_size marital_status
                                          expected_return))) ->
             all_constraints risk_preference asset_size marital_status
                             expected_return (RSI r)).
  { intros r Hr.
    destruct (filter_stocks_row df _ _ _ _ s1 _ r H1 Hf Hr)
      as (row & Hrow & Hk & ->).
    split.
    - apply (risk_stage_constraint df risk_preference s1 row H1 Hrow).
    - apply rsi_keep_constraints, Hk. }
  split; [exact Hall|].
  intros Hno.
  destruct (drop_duplicates _) as [|r t]; [reflexivity|].
  exfalso. apply (Hno (RSI r)), Hall. left. reflexivity.
Qed.

Lemma output_rsi_meets_all_stages_witness :
  (recognized risk_neutral
   /\ exists out,
        filter_stocks sheet_B risk_neutral (PyInt 500000) single (PyInt 7)
        = Ok out
        /\ out = [mkRow "002" 50 50 50 50 tt]
        /\ forall r, In r out ->
             all_constraints risk_neutral (PyInt 500000) single (PyInt 7)
                             (RSI r))
  /\ (recognized risk_averse
      /\ (forall x, ~ all_constraints risk_averse (PyInt 50000) single
                        (PyInt 3) x)
      /\ filter_stocks sheet_repeats risk_averse (PyInt 50000) married
                       (PyInt 3)
         = Ok [mkRow "001" 20 20 20 20 tt; mkRow "001" 10 20 20 20 tt]
      /\ filter_stocks sheet_repeats risk_averse (PyInt 50000) single
                       (PyInt 3) = Ok []).
Proof.
  assert (Hn : recognized risk_neutral) by (right; left; reflexivity).
  assert (Ha : recognized risk_averse) by (left; reflexivity).
  assert (Hno : forall x, ~ all_constraints risk_averse (PyInt 50000) single
                            (PyInt 3) x).
  { intros x ((Hlt & _) & _ & (_ & Hge) & _).
    specialize (Hlt eq_refl). specialize (Hge eq_refl).
    unfold rsi_below_50 in Hlt. unfold rsi_at_least_50 in Hge.
    rewrite (FloatOrder.ltb_leb_false _ _ Hlt) in Hge. discriminate. }
  split.
  - split; [exact Hn|].
    destruct (output_rsi_meets_all_stages sheet_B risk_neutral (PyInt 500000)
                single (PyInt 7) Hn) as (out & Hout & Hall & _).
    exists out. split; [exact Hout|]. split; [|exact Hall].
    assert (Hrun : filter_stocks sheet_B risk_neutral (PyInt 500000) single
                                 (PyInt 7)
                   = Ok [mkRow "002" 50 50 50 50 tt]) by reflexivity.
    rewrite Hrun in Hout. injection Hout as <-. reflexivity.
  - split; [exact Ha|]. split; [exact Hno|]. split; [reflexivity|].
    destruct (output_rsi_meets_all_stages sheet_repeats risk_averse
                (PyInt 50000) single (PyInt 3) Ha)
      as (out & Hout & _ & Hempty).
    rewrite Hout. f_equal. apply Hempty, Hno.
Defined.

(** C3. [filter_stocks] raises the ValueError exactly when the risk
    preference is none of the three values tested for, whatever the table,
    the empty one included; it returns a table exactly when the preference
    is one of the three, so a failing call produces no table. *)
Theorem invalid_risk_preference_raises {E : Type} (df : DataFrame E)
  (risk_preference : string) (asset_size : pynum) (marital_status : string)
  (expected_return : pynum) :
  (filter_stocks df risk_preference asset_size marital_status expected_return
   = Raise risk_error <-> ~ recognized risk_preference)
  /\ (filter_stocks (@nil (Row E)) risk_preference asset_size marital_status
                    expected_return
      = Raise risk_error <-> ~ recognized risk_preference)
  /\ ((exists out,
         filter_stocks df risk_preference asset_size marital_status
                       expected_return = Ok out)
      <-> recognized risk_preference).
Proof.
  assert (Hiff : forall d : DataFrame E,
             (filter_stocks d risk_preference asset_size marital_status
                            expected_return = Raise risk_error
              <-> ~ recognized risk_preference)
             /\ ((exists out,
                    filter_stocks d risk_preference asset_size marital_status
                                  expected_return = Ok out)
                 <-> recognized risk_preference)).
  { intros d. destruct (risk_stage d risk_preference) as [s1|err] eqn:H1.
    - pose proof (risk_stage_Ok_recognized d _ _ H1) as Hrec.
      rewrite (filter_stocks_stages d _ asset_size marital_status
                 expected_return s1 H1).
      split; split; try discriminate; try tauto. eauto.
    - assert (Hn : ~ recognized risk_preference).
      { intros Hrec. destruct (risk_stage_Ok d _ Hrec) as [s1 Hs].
        congruence. }
      unfold filter_stocks. rewrite H1.
      rewrite (risk_stage_unrecognized d _ Hn) in H1. injection H1 as <-.
      split; split; try tauto.
      intros [out Hout]. discriminate. }
  split; [apply Hiff|]. split; apply Hiff.
Qed.

(** C4. The first block keeps exactly the rows that satisfy the predicate of
    the risk preference, in their order: all of K, D, J below 30 and RSI
    below 50 for the averse investor; K, D, J and RSI each between 30 and 70,
    both ends included, for the neutral one; all of K, D, J above 70 and RSI
    above 50 for the risk-seeking one. *)
Theorem risk_stage_keeps_exactly {E : Type} (df : DataFrame E) :
  risk_stage df risk_averse
  = Ok (filter (fun r => (K r <? lit 30)%float && (D r <? lit 30)%float
                         && (J r <? lit 30)%float && (RSI r <? lit 50)%float)
               df)
  /\ risk_stage df risk_neutral
     = Ok (filter (fun r =>
                     ((lit 30 <=? K r)%float && (K r <=? lit 70)%float)
                     && ((lit 30 <=? D r)%float && (D r <=? lit 70)%float)
                     && ((lit 30 <=? J r)%float && (J r <=? lit 70)%float)
                     && ((lit 30 <=? RSI r)%float && (RSI r <=? lit 70)%float))
                  df)
  /\ risk_stage df risk_seeking
     = Ok (filter (fun r => (lit 70 <? K r)%float && (lit 70 <? D r)%float
                            && (lit 70 <? J r)%float && (lit 50 <? RSI r)%float)
                  df).
Proof.
  split; [apply risk_stage_averse|].
  split; [apply risk_stage_neutral|apply risk_stage_seeking].
Qed.

(** C5. The asset-size block keeps, from the rows it is given, exactly those
    whose RSI lies in the bracket of the asset size: below 30 when the asset
    size is below 100000, between 30 and 70 inclusive when it is at least
    100000 and below 1000000, above 70 when it is at least 1000000.  Zero and
    every negative asset size, integer or float, fall in the first bracket. *)
Theorem asset_stage_keeps_exactly {E : Type} (filtered : DataFrame E)
  (asset_size : pynum) :
  (num_lt asset_size 100000 = true ->
   asset_stage filtered asset_size
   = filter (fun r => (RSI r <? lit 30)%float) filtered)
  /\ (lit_le 100000 asset_size = true -> num_lt asset_size 1000000 = true ->
      asset_stage filtered asset_size
      = filter (fun r => (lit 30 <=? RSI r)%float && (RSI r <=? lit 70)%float)
               filtered)
  /\ (lit_le 1000000 asset_size = true ->
      asset_stage filtered asset_size
      = filter (fun r => (lit 70 <? RSI r)%float) filtered)
  /\ (forall z, (z <= 0)%Z ->
      asset_stage filtered (PyInt z)
      = filter (fun r => (RSI r <? lit 30)%float) filtered)
  /\ (forall f, (f <=? lit 0)%float = true ->
      asset_stage filtered (PyFloat f)
      = filter (fun r => (RSI r <? lit 30)%float) filtered).
Proof.
  repeat apply conj.
  - intros H. rewrite asset_stage_filter. unfold bracket_keep.
    rewrite H. reflexivity.
  - intros H1 H2. rewrite asset_stage_filter. unfold bracket_keep.
    rewrite (lit_le_not_lt _ _ H1), H1, H2. reflexivity.
  - intros H. rewrite asset_stage_filter. unfold bracket_keep.
    destruct (ladder_top 100000 1000000 asset_size) as [H1 H2];
      [lia|reflexivity|exact H|].
    rewrite H1, H2, andb_false_r. reflexivity.
  - intros z Hz. rewrite asset_stage_filter. unfold bracket_keep.
    rewrite (ladder_nonpositive_int 100000 z); [reflexivity|lia|exact Hz].
  - intros f Hf. rewrite asset_stage_filter. unfold bracket_keep.
    rewrite (ladder_nonpositive_float 100000 f);
      [reflexivity|reflexivity|exact Hf].
Qed.

Lemma asset_stage_keeps_exactly_witness :
  asset_stage sheet_A (PyInt 50000) = []
  /\ asset_stage sheet_B (PyInt 500000) = sheet_B
  /\ asset_stage sheet_repeats (PyFloat 2500000.5)
     = [mkRow "003" 80 80 80 80 "gamma"]
  /\ asset_stage sheet_A (PyInt (-7)) = []
  /\ asset_stage sheet_A (PyFloat (-0.5)) = [].
Proof.
  destruct (asset_stage_keeps_exactly sheet_A (PyInt 50000))
    as (Hlow & _ & _ & _ & _).
  destruct (asset_stage_keeps_exactly sheet_B (PyInt 500000))
    as (_ & Hmid & _ & _ & _).
  destruct (asset_stage_keeps_exactly sheet_repeats (PyFloat 2500000.5))
    as (_ & _ & Hhigh & _ & _).
  destruct (asset_stage_keeps_exactly sheet_A (PyInt 0))
    as (_ & _ & _ & Hint & Hfloat).
  repeat apply conj.
  - rewrite Hlow; reflexivity.
  - rewrite Hmid; reflexivity.
  - rewrite Hhigh; reflexivity.
  - rewrite (Hint (-7)%Z); [reflexivity|lia].
  - rewrite (Hfloat (-0.5)%float); reflexivity.
Defined.

(** C6. The marital-status block keeps exactly the rows with RSI below 50 for
    a married investor and exactly those with RSI at least 50 for a single
    one; for any other marital status it returns its input unchanged. *)
Theorem marital_stage_keeps_exactly {E : Type} (filtered : DataFrame E) :
  marital_stage filtered married
  = filter (fun r => (RSI r <? lit 50)%float) filtered
  /\ marital_stage filtered single
     = filter (fun r => (lit 50 <=? RSI r)%float) filtered
  /\ (forall marital_status,
        marital_status <> married -> marital_status <> single ->
        marital_stage filtered marital_status = filtered).
Proof.
  repeat apply conj.
  - unfold marital_stage. rewrite String.eqb_refl, series_lt_col.
    apply getitem_mask_map.
  - unfold marital_stage.
    change (single =? married)%string with false.
    rewrite String.eqb_refl, series_ge_col. apply getitem_mask_map.
  - intros m Hm Hs. unfold marital_stage.
    destruct (String.eqb_spec m married); [contradiction|].
    destruct (String.eqb_spec m single); [contradiction|]. reflexivity.
Qed.

Lemma marital_stage_keeps_exactly_witness :
  marital_stage sheet_repeats "离异" = sheet_repeats.
Proof.
  destruct (marital_stage_keeps_exactly sheet_repeats) as (_ & _ & H).
  apply (H "离异"); discriminate.
Defined.

(** C7. The expected-return block keeps, from the rows it is given, exactly
    those whose RSI lies in the bracket of the expected return: below 30 when
    it is below 5, between 30 and 70 inclusive when it is at least 5 and
    below 10, above 70 when it is at least 10. *)
Theorem return_stage_keeps_exactly {E : Type} (filtered : DataFrame E)
  (expected_return : pynum) :
  (num_lt expected_return 5 = true ->
   return_stage filtered expected_return
   = filter (fun r => (RSI r <? lit 30)%float) filtered)
  /\ (lit_le 5 expected_return = true -> num_lt expected_return 10 = true ->
      return_stage filtered expected_return
      = filter (fun r => (lit 30 <=? RSI r)%float && (RSI r <=? lit 70)%float)
               filtered)
  /\ (lit_le 10 expected_return = true ->
      return_stage filtered expected_return
      = filter (fun r => (lit 70 <? RSI r)%float) filtered).
Proof.
  repeat apply conj.
  - intros H. rewrite return_stage_filter. unfold bracket_keep.
    rewrite H. reflexivity.
  - intros H1 H2. rewrite return_stage_filter. unfold bracket_keep.
    rewrite (lit_le_not_lt _ _ H1), H1, H2. reflexivity.
  - intros H. rewrite return_stage_filter. unfold bracket_keep.
    destruct (ladder_top 5 10 expected_return) as [H1 H2];
      [lia|reflexivity|exact H|].
    rewrite H1, H2, andb_false_r. reflexivity.
Qed.

Lemma return_stage_keeps_exactly_witness :
  return_stage sheet_A (PyInt 3) = []
  /\ return_stage sheet_B (PyInt 7) = sheet_B
  /\ return_stage sheet_repeats (PyFloat 12.5)
     = [mkRow "003" 80 80 80 80 "gamma"].
Proof.
  destruct (return_stage_keeps_exactly sheet_A (PyInt 3)) as (Hlow & _ & _).
  destruct (return_stage_keeps_exactly sheet_B (PyInt 7)) as (_ & Hmid & _).
  destruct (return_stage_keeps_exactly sheet_repeats (PyFloat 12.5))
    as (_ & _ & Hhigh).
  repeat apply conj.
  - rewrite Hlow; reflexivity.
  - rewrite Hmid; reflexivity.
  - rewrite Hhigh; reflexivity.
Defined.

(** C8. After the four blocks the surviving rows are projected onto the five
    output columns and deduplicated on the whole five-field tuple, the first
    occurrence being the one kept and the order of the input preserved:
    every row of the result is a surviving row; of the rows equal on all five
    fields to a surviving row the result holds exactly one; a surviving row
    with no equal row before it is kept, right after the deduplicated rows
    that precede it; and two surviving rows with the same code that differ in
    the value of an indicator are both represented, by different rows. *)
Theorem result_is_projected_and_deduplicated {E : Type} (df : DataFrame E)
  (risk_preference : string) (asset_size : pynum) (marital_status : string)
  (expected_return : pynum) (s1 : DataFrame E) :
  risk_stage df risk_preference = Ok s1 ->
  exists out,
    filter_stocks df risk_preference asset_size marital_status expected_return
    = Ok out
    /\ (forall r, In r out ->
          In r (map project (narrow s1 asset_size marital_status
                                    expected_return)))
    /\ (forall r,
          In r (map project (narrow s1 asset_size marital_status
                                    expected_return)) ->
          List.length (filter (row_same r) out) = 1%nat)
    /\ (forall l1 r l2,
          map project (narrow s1 asset_size marital_status expected_return)
          = l1 ++ r :: l2 ->
          existsb (row_same r) l1 = false ->
          exists rest, out = drop_duplicates l1 ++ r :: rest)
    /\ (forall row1 row2,
          In row1 (narrow s1 asset_size marital_status expected_return) ->
          In row2 (narrow s1 asset_size marital_status expected_return) ->
          code row1 = code row2 ->
          (K row1 =? K row2)%float = false \/ (D row1 =? D row2)%float = false
          \/ (J row1 =? J row2)%float = false
          \/ (RSI row1 =? RSI row2)%float = false ->
          exists r1 r2,
            In r1 out /\ In r2 out
            /\ row_same (project row1) r1 = true
            /\ row_same (project row2) r2 = true
            /\ row_same r1 r2 = false).
Proof.
  intros H1.
  eexists. split; [apply (filter_stocks_stages _ _ _ _ _ _ H1)|].
  set (survivors := map project (narrow s1 asset_size marital_status
                                        expected_return)).
  repeat apply conj.
  - intros r. apply drop_duplicates_In.
  - intros r Hr. rewrite drop_duplicates_count.
    replace (existsb (row_same r) survivors) with true; [reflexivity|].
    symmetry. apply existsb_exists. exists r.
    split; [exact Hr|apply FloatSame.row_same_refl].
  - intros l1 r l2 -> Hfirst. apply drop_duplicates_first, Hfirst.
  - intros row1 row2 Hin1 Hin2 _ Hdiff.
    destruct (drop_duplicates_represents survivors (project row1))
      as (r1 & Hr1 & Hs1); [apply in_map, Hin1|].
    destruct (drop_duplicates_represents survivors (project row2))
      as (r2 & Hr2 & Hs2); [apply in_map, Hin2|].
    exists r1, r2. repeat split; try assumption.
    apply not_true_iff_false. intros Hsame.
    pose proof (survivors_differ df risk_preference s1 row1 row2 H1
                  (narrow_In _ _ _ _ _ Hin1) Hdiff) as Hne.
    apply not_true_iff_false in Hne. apply Hne.
    apply (FloatSame.row_same_trans _ r1); [exact Hs1|].
    apply (FloatSame.row_same_trans _ r2); [exact Hsame|].
    apply FloatSame.row_same_sym, Hs2.
Qed.

Lemma result_is_projected_and_deduplicated_witness :
  risk_stage sheet_repeats risk_averse = Ok sheet_repeats_averse
  /\ filter_stocks sheet_repeats risk_averse (PyInt 50000) married (PyInt 3)
     = Ok [mkRow "001" 20 20 20 20 tt; mkRow "001" 10 20 20 20 tt]
  /\ exists out,
       filter_stocks sheet_repeats risk_averse (PyInt 50000) married (PyInt 3)
       = Ok out
       /\ List.length (filter (row_same (mkRow "001" 20 20 20 20 tt)) out)
          = 1%nat.
Proof.
  split; [reflexivity|]. split; [reflexivity|].
  destruct (result_is_projected_and_deduplicated sheet_repeats risk_averse
              (PyInt 50000) married (PyInt 3) sheet_repeats_averse eq_refl)
    as (out & Hout & _ & Hone & _).
  exists out. split; [exact Hout|].
  apply Hone. left. reflexivity.
Defined.

(** C9. For every table and every profile with a recognized risk preference,
    the rows the first block keeps are a superset of the rows of the full
    result: every row of the result is the projection of a row the first
    block kept, and belongs to the table obtained by projecting and
    deduplicating the output of the first block alone. *)
Theorem stage_one_alone_is_superset {E : Type} (df : DataFrame E)
  (risk_preference : string) (asset_size : pynum) (marital_status : string)
  (expected_return : pynum) :
  recognized risk_preference ->
  exists s1 out,
    risk_stage df risk_preference = Ok s1
    /\ filter_stocks df risk_preference asset_size marital_status
                     expected_return = Ok out
    /\ (forall r, In r out -> exists row, In row s1 /\ r = project row)
    /\ (forall r, In r out -> In r (drop_duplicates (map project s1))).
Proof.
  intros Hrec. destruct (risk_stage_Ok df risk_preference Hrec) as [s1 H1].
  pose proof (filter_stocks_stages df risk_preference asset_size
                marital_status expected_return s1 H1) as Hf.
  exists s1. eexists. split; [exact H1|]. split; [exact Hf|]. split.
  - intros r Hr.
    destruct (filter_stocks_row df _ _ _ _ s1 _ r H1 Hf Hr)
      as (row & Hrow & _ & ->).
    exists row. split; [exact Hrow|reflexivity].
  - intros r. rewrite dedup_before_narrow. intros Hr.
    apply filter_In in Hr. tauto.
Qed.

Lemma stage_one_alone_is_superset_witness :
  recognized risk_averse
  /\ exists s1 out,
       risk_stage sheet_repeats risk_averse = Ok s1
       /\ filter_stocks sheet_repeats risk_averse (PyInt 50000) married
                        (PyInt 3) = Ok out
       /\ (forall r, In r out -> exists row, In row s1 /\ r = project row)
       /\ (forall r, In r out -> In r (drop_duplicates (map project s1))).
Proof.
  split.
  - left. reflexivity.
  - apply (stage_one_alone_is_superset sheet_repeats risk_averse
             (PyInt 50000) married (PyInt 3)).
    left. reflexivity.
Defined.

(** C10. For every table, an averse and single investor gets the empty
    result: the first block admits only rows with RSI below 50 and the
    marital-status block keeps only rows with RSI at least 50. *)
Theorem averse_single_is_empty {E : Type} (df : DataFrame E)
  (asset_size expected_return : pynum) :
  filter_stocks df risk_averse asset_size single expected_return = Ok [].
Proof.
  rewrite (filter_stocks_stages df risk_averse asset_size single
             expected_return _ (risk_stage_averse df)).
  rewrite narrow_filter, filter_filter, filter_none; [reflexivity|].
  intros row _. apply not_true_iff_false.
  unfold averse_rule, rsi_keep, marital_keep.
  change (single =? married)%string with false.
  rewrite String.eqb_refl, !andb_true_iff.
  unfold rsi_below_50, rsi_at_least_50.
  intros [[_ Hlt] [[_ Hge] _]].
  rewrite (FloatOrder.ltb_leb_false _ _ Hlt) in Hge. discriminate.
Qed.

(** * Beyond the claims: the function as one row-wise test after
      deduplication *)

Section NormalForm.
Import FloatOrder FloatSame.

Lemma risk_rule_recognized {E : Type} rp (r : Row E) :
  risk_rule rp r = true -> recognized rp.
Proof.
  unfold risk_rule, recognized.
  destruct (String.eqb_spec rp risk_averse); [auto|].
  destruct (String.eqb_spec rp risk_neutral); [auto|].
  destruct (String.eqb_spec rp risk_seeking); [auto|]. discriminate.
Qed.

Lemma risk_stage_rule {E : Type} (df : DataFrame E) rp :
  recognized rp -> risk_stage df rp = Ok (filter (risk_rule rp) df).
Proof.
  intros [->|[->| ->]].
  - apply risk_stage_averse.
  - apply risk_stage_neutral.
  - apply risk_stage_seeking.
Qed.

(** The tests read the five projected columns only. *)
Lemma keep_row_project {E : Type} rp a m e (row : Row E) :
  keep_row rp a m e (project row) = keep_row rp a m e row.
Proof. reflexivity. Qed.

Lemma risk_rule_respects rp (r1 r2 : Row unit) :
  row_same r1 r2 = true -> risk_rule rp r1 = risk_rule rp r2.
Proof.
  intros H. apply row_same_fields in H.
  destruct H as (_ & HK & HD & HJ & HR).
  unfold risk_rule, averse_rule, neutral_rule, seeking_rule, rsi_30_to_70,
    rsi_below_50, rsi_above_50.
  repeat rewrite (float_same_ltb_l _ _ _ HK).
  repeat rewrite (float_same_ltb_r _ _ _ HK).
  repeat rewrite (float_same_leb_l _ _ _ HK).
  repeat rewrite (float_same_leb_r _ _ _ HK).
  repeat rewrite (float_same_ltb_l _ _ _ HD).
  repeat rewrite (float_same_ltb_r _ _ _ HD).
  repeat rewrite (float_same_leb_l _ _ _ HD).
  repeat rewrite (float_same_leb_r _ _ _ HD).
  repeat rewrite (float_same_ltb_l _ _ _ HJ).
  repeat rewrite (float_same_ltb_r _ _ _ HJ).
  repeat rewrite (float_same_leb_l _ _ _ HJ).
  repeat rewrite (float_same_leb_r _ _ _ HJ).
  repeat rewrite (float_same_ltb_l _ _ _ HR).
  repeat rewrite (float_same_ltb_r _ _ _ HR).
  repeat rewrite (float_same_leb_l _ _ _ HR).
  repeat rewrite (float_same_leb_r _ _ _ HR).
  reflexivity.
Qed.

Lemma keep_row_respects rp a m e (r1 r2 : Row unit) :
  row_same r1 r2 = true -> keep_row rp a m e r1 = keep_row rp a m e r2.
Proof.
  intros H. unfold keep_row. rewrite (risk_rule_respects rp r1 r2 H).
  f_equal. apply rsi_keep_respects. apply row_same_fields in H. tauto.
Qed.

Lemma project_filter_rows {E : Type} (p : Row E -> bool)
  (p' : Row unit -> bool) (l : DataFrame E) :
  (forall row, p row = p' (project row)) ->
  map project (filter p l) = filter p' (map project l).
Proof.
  intros Hp. induction l as [|x l IH]; [reflexivity|].
  simpl. rewrite <- Hp. destruct (p x); simpl; rewrite IH; reflexivity.
Qed.

Lemma project_unit (l : DataFrame unit) : map project l = l.
Proof.
  induction l as [|[c k d j r []] l IH]; [reflexivity|].
  simpl. rewrite IH. reflexivity.
Qed.

Lemma filter_stocks_normal_form {E : Type} (df : DataFrame E) rp a m e :
  recognized rp ->
  filter_stocks df rp a m e
  = Ok (filter (keep_row rp a m e) (drop_duplicates (map project df))).
Proof.
  intros Hrec.
  rewrite (filter_stocks_stages df rp a m e _ (risk_stage_rule df rp Hrec)).
  rewrite narrow_filter, filter_filter.
  rewrite (project_filter_rows _ (keep_row rp a m e)) by reflexivity.
  rewrite drop_duplicates_filter; [reflexivity|].
  apply keep_row_respects.
Qed.

Lemma filter_stocks_Ok_recognized {E : Type} (df : DataFrame E) rp a m e out :
  filter_stocks df rp a m e = Ok out -> recognized rp.
Proof.
  unfold filter_stocks. destruct (risk_stage df rp) as [s1|err] eqn:H1;
    [|discriminate].
  intros _. apply (risk_stage_Ok_recognized df rp s1 H1).
Qed.

End NormalForm.

(** * More on the duplicate scan *)

Section DedupScan.
Import FloatSame.

Local Abbreviation dd seen rows :=
  (getitem_mask rows (map negb (duplicated_from seen rows))).

(** Only the label classes present in [seen] matter to the scan. *)
Lemma dd_seen_equiv s1 s2 l :
  (forall r, existsb (row_same r) s1 = existsb (row_same r) s2) ->
  dd s1 l = dd s2 l.
Proof.
  revert s1 s2. induction l as [|x l IH]; intros s1 s2 H; [reflexivity|].
  rewrite !dd_cons, (H x).
  rewrite (IH (x :: s1) (x :: s2)); [reflexivity|].
  intros r. simpl. rewrite (H r). reflexivity.
Qed.

(** Starting the scan with more rows seen removes the rows that match
    them and nothing else. *)
Lemma dd_more_seen s2 seen l :
  dd (s2 ++ seen) l
  = filter (fun r => negb (existsb (row_same r) seen)) (dd s2 l).
Proof.
  revert s2. induction l as [|x l IH]; intros s2; [reflexivity|].
  rewrite !dd_cons, existsb_app.
  specialize (IH (x :: s2)). rewrite <- app_comm_cons in IH.
  destruct (existsb (row_same x) s2); simpl; [exact IH|].
  destruct (existsb (row_same x) seen); simpl; rewrite IH; reflexivity.
Qed.

Lemma existsb_filter_nonempty {A : Type} (f : A -> bool) (l : list A) :
  existsb f l = match filter f l with [] => false | _ :: _ => true end.
Proof.
  induction l as [|x l IH]; [reflexivity|].
  simpl. destruct (f x); [reflexivity|exact IH].
Qed.

(** The result of the scan meets the same label classes as its input. *)
Lemma existsb_drop_duplicates l r :
  existsb (row_same r) (drop_duplicates l) = existsb (row_same r) l.
Proof.
  rewrite (existsb_filter_nonempty _ (drop_duplicates l)).
  pose proof (drop_duplicates_count l r) as Hc.
  destruct (filter (row_same r) (drop_duplicates l));
    destruct (existsb (row_same r) l); simpl in Hc; congruence.
Qed.

Lemma drop_duplicates_app l1 l2 :
  drop_duplicates (l1 ++ l2)
  = drop_duplicates l1
    ++ filter (fun r => negb (existsb (row_same r) (drop_duplicates l1)))
              (drop_duplicates l2).
Proof.
  unfold drop_duplicates at 1, duplicated. rewrite dd_app. f_equal.
  rewrite (dd_seen_equiv (rev l1 ++ []) ([] ++ drop_duplicates l1)).
  - apply dd_more_seen.
  - intros r. rewrite app_nil_r, existsb_reversed. simpl.
    symmetry. apply existsb_drop_duplicates.
Qed.

Lemma drop_duplicates_idempotent l :
  drop_duplicates (drop_duplicates l) = drop_duplicates l.
Proof.
  unfold drop_duplicates, duplicated.
  assert (H : forall seen, dd seen (dd seen l) = dd seen l).
  { induction l as [|x l IH]; intros seen; [reflexivity|].
    rewrite dd_cons. destruct (existsb (row_same x) seen) eqn:Hx.
    - transitivity (dd (x :: seen) (dd (x :: seen) l)); [|apply IH].
      apply dd_seen_equiv. intros r. simpl.
      destruct (row_same r x) eqn:Hrx; [|reflexivity].
      rewrite (existsb_row_same r x seen Hrx), Hx. reflexivity.
    - rewrite dd_cons, Hx, IH. reflexivity. }
  apply H.
Qed.

Lemma drop_duplicates_length l :
  (List.length (drop_duplicates l) <= List.length l)%nat.
Proof.
  unfold drop_duplicates, duplicated. generalize (@nil (Row unit)).
  induction l as [|x l IH]; intros seen; [simpl; lia|].
  rewrite dd_cons. specialize (IH (x :: seen)).
  destruct (existsb (row_same x) seen); simpl; lia.
Qed.

End DedupScan.

(** * Disjoint and complementary RSI ranges *)

Section Ranges.
Import FloatOrder.

Lemma ltb_leb x y : (x <? y)%float = true -> (x <=? y)%float = true.
Proof. rewrite ltb_Lt, leb_Lt_Eq. auto. Qed.

(** Without NaN, [x < y] and [y <= x] are complementary. *)
Lemma ltb_negb_leb x y :
  PrimFloat.is_nan x = false -> PrimFloat.is_nan y = false ->
  (x <? y)%float = negb (y <=? x)%float.
Proof.
  intros Hx Hy. apply not_true_iff_false in Hx, Hy.
  rewrite is_nan_spec in Hx, Hy.
  rewrite ltb_spec, leb_spec. unfold SFltb, SFleb.
  rewrite (SFcompare_antisym (Prim2SF x) (Prim2SF y)).
  destruct (Prim2SF x) as [sx|sx| |sx mx ex] eqn:Ex; try congruence;
    destruct (Prim2SF y) as [sy|sy| |sy my ey] eqn:Ey; try congruence;
    destruct (SFcompare _ _) as [[]|] eqn:Hc; simpl; try reflexivity;
    simpl in Hc; try discriminate;
    repeat match goal with s : bool |- _ => destruct s end; discriminate.
Qed.

(** A value below [c1] is not at or above any [c2] that is at least [c1]. *)
Lemma below_not_at_least x c1 c2 :
  (c1 <=? c2)%float = true -> (x <? c1)%float = true ->
  (c2 <=? x)%float = false.
Proof.
  intros Hc Hx. apply ltb_leb_false. eapply ltb_leb_trans; eassumption.
Qed.

Lemma below_not_above x c1 c2 :
  (c1 <=? c2)%float = true -> (x <? c1)%float = true ->
  (c2 <? x)%float = false.
Proof.
  intros Hc Hx. apply not_true_iff_false. intros H. apply ltb_leb in H.
  rewrite (below_not_at_least x c1 c2 Hc Hx) in H. discriminate.
Qed.

Lemma at_most_not_above x c1 c2 :
  (c1 <=? c2)%float = true -> (x <=? c1)%float = true ->
  (c2 <? x)%float = false.
Proof.
  intros Hc Hx. apply not_true_iff_false. intros H.
  pose proof (ltb_leb_trans _ _ _ H Hx) as H1.
  pose proof (ltb_leb_false _ _ H1) as H2. congruence.
Qed.

(** The test of a ladder in terms of the branch it takes. *)
Lemma bracket_keep_of lo hi v x :
  bracket_keep lo hi v x
  = match bracket_of lo hi v with
    | Low => rsi_below_30 x
    | Mid => rsi_30_to_70 x
    | High => rsi_above_70 x
    end.
Proof.
  unfold bracket_keep, bracket_of. destruct (num_lt v lo); [reflexivity|].
  destruct (lit_le lo v && num_lt v hi); reflexivity.
Qed.

(** No RSI passes the tests of two different branches. *)
Lemma branches_exclusive (b1 b2 : bracket) x :
  match b1 with
  | Low => rsi_below_30 x | Mid => rsi_30_to_70 x | High => rsi_above_70 x
  end = true ->
  match b2 with
  | Low => rsi_below_30 x | Mid => rsi_30_to_70 x | High => rsi_above_70 x
  end = true ->
  b1 = b2.
Proof.
  unfold rsi_below_30, rsi_30_to_70, rsi_above_70.
  destruct b1, b2; try reflexivity; rewrite ?andb_true_iff;
    intros H1 H2; exfalso.
  - destruct H2 as [H2 _].
    rewrite (below_not_at_least x (lit 30) (lit 30) eq_refl H1) in H2.
    discriminate.
  - rewrite (below_not_above x (lit 30) (lit 70) eq_refl H1) in H2.
    discriminate.
  - destruct H1 as [H1 _].
    rewrite (below_not_at_least x (lit 30) (lit 30) eq_refl H2) in H1.
    discriminate.
  - destruct H1 as [_ H1].
    rewrite (at_most_not_above x (lit 70) (lit 70) eq_refl H1) in H2.
    discriminate.
  - rewrite (below_not_above x (lit 30) (lit 70) eq_refl H2) in H1.
    discriminate.
  - destruct H2 as [_ H2].
    rewrite (at_most_not_above x (lit 70) (lit 70) eq_refl H2) in H1.
    discriminate.
Qed.

(** What a row that passes all tests tells about the profile. *)
Lemma keep_row_profile {E : Type} rp a m e (r : Row E) :
  keep_row rp a m e r = true -> ~ dead_profile rp a m e.
Proof.
  unfold keep_row, rsi_keep. rewrite !andb_true_iff, !bracket_keep_of.
  fold (asset_bracket a) (return_bracket e).
  intros (Hrule & (Ha & Hm) & He).
  pose proof (branches_exclusive _ _ _ Ha He) as Hb.
  assert (Hav : rp = risk_averse -> rsi_below_50 (RSI r) = true).
  { intros ->. unfold risk_rule, averse_rule in Hrule.
    rewrite String.eqb_refl, !andb_true_iff in Hrule. tauto. }
  assert (Hne : rp = risk_neutral -> rsi_30_to_70 (RSI r) = true).
  { intros ->. unfold risk_rule, neutral_rule in Hrule.
    change (risk_neutral =? risk_averse)%string with false in Hrule.
    rewrite String.eqb_refl, !andb_true_iff in Hrule. tauto. }
  assert (Hse : rp = risk_seeking -> rsi_above_50 (RSI r) = true).
  { intros ->. unfold risk_rule, seeking_rule in Hrule.
    change (risk_seeking =? risk_averse)%string with false in Hrule.
    change (risk_seeking =? risk_neutral)%string with false in Hrule.
    rewrite String.eqb_refl, !andb_true_iff in Hrule. tauto. }
  assert (Hma : m = married -> rsi_below_50 (RSI r) = true).
  { intros ->. unfold marital_keep in Hm.
    rewrite String.eqb_refl in Hm. exact Hm. }
  assert (Hsi : m = single -> rsi_at_least_50 (RSI r) = true).
  { intros ->. unfold marital_keep in Hm.
    change (single =? married)%string with false in Hm.
    rewrite String.eqb_refl in Hm. exact Hm. }
  clear Hrule Hm He.
  unfold rsi_below_50, rsi_above_50, rsi_at_least_50 in *.
  intros [Hd|[[Hr Hd]|[[Hr Hd]|[[Hr Hd]|[[Hr Hd]|[[Hr Hd]|[[Hr Hd]|[Hr Hd]]]]]]]].
  - contradiction.
  - rewrite Hd in Ha. unfold rsi_above_70 in Ha.
    rewrite (below_not_above _ (lit 50) (lit 70) eq_refl (Hav Hr)) in Ha.
    discriminate.
  - apply Hd. apply (branches_exclusive _ Mid (RSI r) Ha (Hne Hr)).
  - rewrite Hd in Ha. unfold rsi_below_30 in Ha.
    pose proof (below_not_above _ (lit 30) (lit 50) eq_refl Ha) as H.
    rewrite (Hse Hr) in H. discriminate.
  - rewrite Hd in Ha. unfold rsi_above_70 in Ha.
    rewrite (below_not_above _ (lit 50) (lit 70) eq_refl (Hma Hr)) in Ha.
    discriminate.
  - rewrite Hd in Ha. unfold rsi_below_30 in Ha.
    pose proof (below_not_at_least _ (lit 30) (lit 50) eq_refl Ha) as H.
    rewrite (Hsi Hr) in H. discriminate.
  - pose proof (ltb_leb_false _ _ (Hav Hr)) as H.
    rewrite (Hsi Hd) in H. discriminate.
  - pose proof (below_not_above _ (lit 50) (lit 50) eq_refl (Hma Hd)) as H.
    rewrite (Hse Hr) in H. discriminate.
Qed.

End Ranges.

(** * Further properties of [filter_stocks] *)

Section ResultFacts.
Import FloatOrder FloatSame.

Lemma filter_idempotent {A : Type} (p : A -> bool) (l : list A) :
  filter p (filter p l) = filter p l.
Proof.
  induction l as [|x l IH]; [reflexivity|].
  simpl. destruct (p x) eqn:Hx; simpl; rewrite ?Hx, IH; reflexivity.
Qed.

Lemma filter_stocks_no_nan {E : Type} (df : DataFrame E) rp a m e out r :
  filter_stocks df rp a m e = Ok out -> In r out ->
  PrimFloat.is_nan (K r) = false /\ PrimFloat.is_nan (D r) = false
  /\ PrimFloat.is_nan (J r) = false /\ PrimFloat.is_nan (RSI r) = false.
Proof.
  intros Hf Hr.
  destruct (risk_stage df rp) as [s1|err] eqn:H1.
  - destruct (filter_stocks_row df rp a m e s1 out r H1 Hf Hr)
      as (row & Hrow & _ & ->).
    apply (risk_stage_no_nan df rp s1 row H1 Hrow).
  - unfold filter_stocks in Hf. rewrite H1 in Hf. discriminate.
Qed.

(** With a marital status the block does not test, the row-wise test of a
    married or single investor is the same test plus the RSI bound. *)
Lemma keep_row_married {E : Type} rp a m0 e (r : Row E) :
  m0 <> married -> m0 <> single ->
  keep_row rp a married e r
  = keep_row rp a m0 e r && (RSI r <? lit 50)%float.
Proof.
  intros Hm Hs. apply String.eqb_neq in Hm, Hs.
  unfold keep_row, rsi_keep, marital_keep, rsi_below_50.
  rewrite Hm, Hs, String.eqb_refl.
  destruct (risk_rule rp r), (bracket_keep 100000 1000000 a (RSI r)),
    (bracket_keep 5 10 e (RSI r)), (RSI r <? lit 50)%float; reflexivity.
Qed.

Lemma keep_row_single {E : Type} rp a m0 e (r : Row E) :
  m0 <> married -> m0 <> single ->
  keep_row rp a single e r
  = keep_row rp a m0 e r && (lit 50 <=? RSI r)%float.
Proof.
  intros Hm Hs. apply String.eqb_neq in Hm, Hs.
  unfold keep_row, rsi_keep, marital_keep, rsi_at_least_50.
  rewrite Hm, Hs. change (single =? married)%string with false.
  rewrite String.eqb_refl.
  destruct (risk_rule rp r), (bracket_keep 100000 1000000 a (RSI r)),
    (bracket_keep 5 10 e (RSI r)), (lit 50 <=? RSI r)%float; reflexivity.
Qed.

(** A single row that passes all tests is recommended. *)
Lemma live_row rp a m e (r : Row unit) :
  keep_row rp a m e r = true ->
  exists (df : DataFrame unit) out,
    filter_stocks df rp a m e = Ok out /\ out <> [].
Proof.
  intros Hk. exists [r].
  assert (Hrec : recognized rp).
  { unfold keep_row in Hk. apply andb_true_iff in Hk.
    apply (risk_rule_recognized rp r), Hk. }
  rewrite (filter_stocks_normal_form [r] rp a m e Hrec).
  exists [r]. split; [|discriminate].
  rewrite project_unit.
  change (drop_duplicates [r]) with [r].
  cbn [filter]. rewrite Hk. reflexivity.
Qed.

Lemma marital_keep_other m x :
  m <> married -> m <> single -> marital_keep m x = true.
Proof.
  intros Hm Hs. apply String.eqb_neq in Hm, Hs.
  unfold marital_keep. rewrite Hm, Hs. reflexivity.
Qed.

End ResultFacts.

(** X1. A result is a fixed point: giving the returned table back to
    [filter_stocks] with the same profile returns it unchanged. *)
Theorem result_is_fixed_point {E : Type} (df : DataFrame E)
  (risk_preference : string) (asset_size : pynum) (marital_status : string)
  (expected_return : pynum) (out : DataFrame unit) :
  filter_stocks df risk_preference asset_size marital_status expected_return
  = Ok out ->
  filter_stocks out risk_preference asset_size marital_status expected_return
  = Ok out.
Proof.
  intros Hf.
  pose proof (filter_stocks_Ok_recognized _ _ _ _ _ _ Hf) as Hrec.
  rewrite (filter_stocks_normal_form df _ asset_size marital_status
             expected_return Hrec) in Hf.
  injection Hf as <-.
  rewrite (filter_stocks_normal_form _ _ asset_size marital_status
             expected_return Hrec).
  rewrite project_unit, drop_duplicates_filter
    by apply keep_row_respects.
  rewrite drop_duplicates_idempotent, filter_idempotent. reflexivity.
Qed.

Lemma result_is_fixed_point_witness :
  filter_stocks sheet_repeats risk_averse (PyInt 50000) married (PyInt 3)
  = Ok [mkRow "001" 20 20 20 20 tt; mkRow "001" 10 20 20 20 tt]
  /\ filter_stocks [mkRow "001" 20 20 20 20 tt; mkRow "001" 10 20 20 20 tt]
                   risk_averse (PyInt 50000) married (PyInt 3)
     = Ok [mkRow "001" 20 20 20 20 tt; mkRow "001" 10 20 20 20 tt].
Proof.
  split; [reflexivity|].
  apply (result_is_fixed_point sheet_repeats). reflexivity.
Defined.

(** X3. Rows appended to a sheet never change what was recommended from the
    rows before them: the result for [df1 ++ df2] is the result for [df1]
    followed by those rows of the result for [df2] that equal no row of the
    result for [df1]. *)
Theorem appended_rows_extend_result {E : Type} (df1 df2 : DataFrame E)
  (risk_preference : string) (asset_size : pynum) (marital_status : string)
  (expected_return : pynum) (out1 out2 : DataFrame unit) :
  filter_stocks df1 risk_preference asset_size marital_status expected_return
  = Ok out1 ->
  filter_stocks df2 risk_preference asset_size marital_status expected_return
  = Ok out2 ->
  filter_stocks (df1 ++ df2) risk_preference asset_size marital_status
                expected_return
  = Ok (out1 ++ filter (fun r => negb (existsb (row_same r) out1)) out2).
Proof.
  intros H1 H2.
  pose proof (filter_stocks_Ok_recognized _ _ _ _ _ _ H1) as Hrec.
  rewrite filter_stocks_normal_form in H1, H2 |- * by exact Hrec.
  injection H1 as <-. injection H2 as <-.
  rewrite map_app, drop_duplicates_app, filter_app. do 2 f_equal.
  rewrite !filter_filter. apply filter_ext. intros r.
  destruct (keep_row risk_preference asset_size marital_status
                     expected_return r) eqn:Hk;
    [|rewrite andb_false_r; reflexivity].
  rewrite andb_true_r. simpl. f_equal. symmetry.
  apply existsb_filter_respect; [apply keep_row_respects|exact Hk].
Qed.

Lemma appended_rows_extend_result_witness :
  filter_stocks sheet_repeats risk_averse (PyInt 50000) married (PyInt 3)
  = Ok [mkRow "001" 20 20 20 20 tt; mkRow "001" 10 20 20 20 tt]
  /\ filter_stocks [mkRow "001" 10 20 20 20 "alpha";
                    mkRow "007" 10 10 10 10 "eta"]
                   risk_averse (PyInt 50000) married (PyInt 3)
     = Ok [mkRow "001" 10 20 20 20 tt; mkRow "007" 10 10 10 10 tt]
  /\ filter_stocks (sheet_repeats ++ [mkRow "001" 10 20 20 20 "alpha";
                                      mkRow "007" 10 10 10 10 "eta"])
                   risk_averse (PyInt 50000) married (PyInt 3)
     = Ok [mkRow "001" 20 20 20 20 tt; mkRow "001" 10 20 20 20 tt;
           mkRow "007" 10 10 10 10 tt].
Proof.
  split; [reflexivity|]. split; [reflexivity|].
  rewrite (appended_rows_extend_result sheet_repeats
             [mkRow "001" 10 20 20 20 "alpha"; mkRow "007" 10 10 10 10 "eta"]
             risk_averse (PyInt 50000) married (PyInt 3)
             [mkRow "001" 20 20 20 20 tt; mkRow "001" 10 20 20 20 tt]
             [mkRow "001" 10 20 20 20 tt; mkRow "007" 10 10 10 10 tt]
             eq_refl eq_refl).
  reflexivity.
Defined.

(** X4. A sheet that contains every row of another sheet recommends, for
    every row recommended from the smaller sheet, a row equal to it on all
    five columns. *)
Theorem larger_sheet_keeps_recommendations {E : Type} (df df' : DataFrame E)
  (risk_preference : string) (asset_size : pynum) (marital_status : string)
  (expected_return : pynum) (out : DataFrame unit) :
  (forall row, In row df -> In row df') ->
  filter_stocks df risk_preference asset_size marital_status expected_return
  = Ok out ->
  exists out',
    filter_stocks df' risk_preference asset_size marital_status
                  expected_return = Ok out'
    /\ forall r, In r out -> exists r', In r' out' /\ row_same r r' = true.
Proof.
  intros Hincl Hf.
  pose proof (filter_stocks_Ok_recognized _ _ _ _ _ _ Hf) as Hrec.
  rewrite filter_stocks_normal_form in Hf |- * by exact Hrec.
  injection Hf as <-. eexists. split; [reflexivity|].
  intros r Hr. apply filter_In in Hr. destruct Hr as [Hr Hk].
  apply drop_duplicates_In, in_map_iff in Hr.
  destruct Hr as (row & <- & Hrow).
  destruct (drop_duplicates_represents (map project df') (project row))
    as (r' & Hr' & Hsame); [apply in_map, Hincl, Hrow|].
  exists r'. split; [|exact Hsame].
  apply filter_In. split; [exact Hr'|].
  rewrite <- (keep_row_respects _ _ _ _ _ _ Hsame). exact Hk.
Qed.

Lemma larger_sheet_keeps_recommendations_witness :
  (forall row, In row sheet_repeats_averse -> In row sheet_repeats)
  /\ exists out',
       filter_stocks sheet_repeats risk_averse (PyInt 50000) married
                     (PyInt 3) = Ok out'
       /\ forall r,
            In r [mkRow "001" 20 20 20 20 tt; mkRow "001" 10 20 20 20 tt] ->
            exists r', In r' out' /\ row_same r r' = true.
Proof.
  assert (H : forall row,
             In row sheet_repeats_averse -> In row sheet_repeats).
  { intros row Hrow. simpl in Hrow |- *.
    destruct Hrow as [<-|[<-|[<-|[<-|[]]]]]; auto 6. }
  split; [exact H|].
  apply (larger_sheet_keeps_recommendations sheet_repeats_averse
           sheet_repeats risk_averse (PyInt 50000) married (PyInt 3) _ H).
  reflexivity.
Defined.

(** X5. A profile whose RSI tests exclude one another gets the empty table
    from every sheet: when the asset size and the expected return select
    different brackets, or the bracket, the risk preference and the marital
    status ask for disjoint RSI ranges. *)
Theorem dead_profile_gets_nothing {E : Type} (df : DataFrame E)
  (risk_preference : string) (asset_size : pynum) (marital_status : string)
  (expected_return : pynum) :
  recognized risk_preference ->
  dead_profile risk_preference asset_size marital_status expected_return ->
  filter_stocks df risk_preference asset_size marital_status expected_return
  = Ok [].
Proof.
  intros Hrec Hdead.
  rewrite filter_stocks_normal_form by exact Hrec.
  rewrite filter_none; [reflexivity|].
  intros r _. apply not_true_iff_false. intros Hk.
  apply (keep_row_profile _ _ _ _ r Hk Hdead).
Qed.

Lemma dead_profile_gets_nothing_witness :
  recognized risk_averse
  /\ dead_profile risk_averse (PyInt 50000) married (PyInt 7)
  /\ filter_stocks sheet_repeats risk_averse (PyInt 50000) married (PyInt 7)
     = Ok [].
Proof.
  assert (Hrec : recognized risk_averse) by (left; reflexivity).
  assert (Hdead : dead_profile risk_averse (PyInt 50000) married (PyInt 7))
    by (left; discriminate).
  split; [exact Hrec|]. split; [exact Hdead|].
  apply (dead_profile_gets_nothing sheet_repeats _ _ _ _ Hrec Hdead).
Defined.

(** X6. Every other profile with a recognized risk preference is served by
    some sheet: there is a table from which [filter_stocks] returns at least
    one row. *)
Theorem live_profile_gets_something (risk_preference : string)
  (asset_size : pynum) (marital_status : string) (expected_return : pynum) :
  recognized risk_preference ->
  ~ dead_profile risk_preference asset_size marital_status expected_return ->
  exists (df : DataFrame unit) out,
    filter_stocks df risk_preference asset_size marital_status
                  expected_return = Ok out
    /\ out <> [].
Proof.
  intros Hrec Hlive.
  assert (Hkeep : exists r : Row unit,
             keep_row risk_preference asset_size marital_status
                      expected_return r = true).
  { unfold keep_row, rsi_keep. setoid_rewrite bracket_keep_of.
    fold (asset_bracket asset_size) (return_bracket expected_return).
    unfold dead_profile in Hlive.
    destruct (asset_bracket asset_size) eqn:Ha;
      destruct (return_bracket expected_return) eqn:He;
      try (exfalso; apply Hlive; left; discriminate);
      destruct Hrec as [->|[->| ->]];
      try (exfalso; apply Hlive; right; left; split; [reflexivity|];
           reflexivity);
      try (exfalso; apply Hlive; right; right; left; split; [reflexivity|];
           discriminate);
      try (exfalso; apply Hlive; right; right; right; left;
           split; reflexivity);
      (destruct (String.eqb_spec marital_status married) as [->|Hm];
       [|destruct (String.eqb_spec marital_status single) as [->|Hs]]);
      try (exfalso; apply Hlive; do 4 right; left; split; reflexivity);
      try (exfalso; apply Hlive; do 5 right; left; split; reflexivity);
      try (exfalso; apply Hlive; do 6 right; left; split; reflexivity);
      try (exfalso; apply Hlive; do 7 right; split; reflexivity);
      first
        [ exists (mkRow "" 20 20 20 20 tt); cbn [RSI];
          rewrite ?(marital_keep_other _ _ Hm Hs); reflexivity
        | exists (mkRow "" 20 20 20 40 tt); cbn [RSI];
          rewrite ?(marital_keep_other _ _ Hm Hs); reflexivity
        | exists (mkRow "" 50 50 50 40 tt); cbn [RSI];
          rewrite ?(marital_keep_other _ _ Hm Hs); reflexivity
        | exists (mkRow "" 50 50 50 60 tt); cbn [RSI];
          rewrite ?(marital_keep_other _ _ Hm Hs); reflexivity
        | exists (mkRow "" 80 80 80 60 tt); cbn [RSI];
          rewrite ?(marital_keep_other _ _ Hm Hs); reflexivity
        | exists (mkRow "" 80 80 80 80 tt); cbn [RSI];
          rewrite ?(marital_keep_other _ _ Hm Hs); reflexivity ]. }
  destruct Hkeep as [r Hr]. apply (live_row _ _ _ _ r Hr).
Qed.

Lemma live_profile_gets_something_witness :
  recognized risk_neutral
  /\ ~ dead_profile risk_neutral (PyInt 500000) single (PyInt 7)
  /\ exists (df : DataFrame unit) out,
       filter_stocks df risk_neutral (PyInt 500000) single (PyInt 7) = Ok out
       /\ out <> [].
Proof.
  assert (Hrec : recognized risk_neutral) by (right; left; reflexivity).
  assert (Hlive : ~ dead_profile risk_neutral (PyInt 500000) single (PyInt 7)).
  { intros [H|[[H _]|[[_ H]|[[H _]|[[H _]|[[_ H]|[[H _]|[H _]]]]]]]];
      try discriminate; apply H; reflexivity. }
  split; [exact Hrec|]. split; [exact Hlive|].
  apply (live_profile_gets_something _ _ _ _ Hrec Hlive).
Defined.

(** X7. No cell of a returned row is NaN: a row with a missing K, D, J or RSI
    is never recommended. *)
Theorem result_has_no_nan {E : Type} (df : DataFrame E)
  (risk_preference : string) (asset_size : pynum) (marital_status : string)
  (expected_return : pynum) (out : DataFrame unit) :
  filter_stocks df risk_preference asset_size marital_status expected_return
  = Ok out ->
  forall r, In r out ->
    PrimFloat.is_nan (K r) = false /\ PrimFloat.is_nan (D r) = false
    /\ PrimFloat.is_nan (J r) = false /\ PrimFloat.is_nan (RSI r) = false.
Proof.
  intros Hf r Hr.
  apply (filter_stocks_no_nan df _ _ _ _ out r Hf Hr).
Qed.

Lemma result_has_no_nan_witness :
  filter_stocks [mkRow "004" PrimFloat.nan 20 20 20 tt;
                 mkRow "006" 20 20 20 20 tt]
                risk_averse (PyInt 50000) married (PyInt 3)
  = Ok [mkRow "006" 20 20 20 20 tt]
  /\ forall r, In r [mkRow "006" 20 20 20 20 tt] ->
       PrimFloat.is_nan (K r) = false /\ PrimFloat.is_nan (D r) = false
       /\ PrimFloat.is_nan (J r) = false /\ PrimFloat.is_nan (RSI r) = false.
Proof.
  split; [reflexivity|].
  apply (result_has_no_nan [mkRow "004" PrimFloat.nan 20 20 20 tt;
                            mkRow "006" 20 20 20 20 tt]
           risk_averse (PyInt 50000) married (PyInt 3)).
  reflexivity.
Defined.

(** X8. The marital-status block splits the result it would otherwise leave
    alone: for a status the block does not test, the table of a married
    investor is the rows of that result with RSI below 50, the table of a
    single investor the rows with RSI at least 50, and every row of that
    result is in exactly one of the two. *)
Theorem marital_status_splits_result {E : Type} (df : DataFrame E)
  (risk_preference : string) (asset_size : pynum) (marital_status : string)
  (expected_return : pynum) :
  recognized risk_preference ->
  marital_status <> married -> marital_status <> single ->
  exists out,
    filter_stocks df risk_preference asset_size marital_status
                  expected_return = Ok out
    /\ filter_stocks df risk_preference asset_size married expected_return
       = Ok (filter (fun r => (RSI r <? lit 50)%float) out)
    /\ filter_stocks df risk_preference asset_size single expected_return
       = Ok (filter (fun r => (lit 50 <=? RSI r)%float) out)
    /\ forall r, In r out ->
         (RSI r <? lit 50)%float = negb (lit 50 <=? RSI r)%float.
Proof.
  intros Hrec Hm Hs.
  pose proof (filter_stocks_normal_form df risk_preference asset_size
                marital_status expected_return Hrec) as Hf.
  eexists. split; [exact Hf|].
  rewrite !filter_stocks_normal_form by exact Hrec.
  rewrite !filter_filter. repeat split.
  - f_equal. apply filter_ext. intros r.
    apply (keep_row_married _ _ marital_status _ r Hm Hs).
  - f_equal. apply filter_ext. intros r.
    apply (keep_row_single _ _ marital_status _ r Hm Hs).
  - intros r Hr. apply ltb_negb_leb; [|reflexivity].
    apply (filter_stocks_no_nan df _ _ _ _ _ r Hf Hr).
Qed.

Lemma marital_status_splits_result_witness :
  recognized risk_neutral
  /\ "离异" <> married /\ "离异" <> single
  /\ exists out,
       filter_stocks sheet_B risk_neutral (PyInt 500000) "离异" (PyInt 7)
       = Ok out
       /\ filter_stocks sheet_B risk_neutral (PyInt 500000) married (PyInt 7)
          = Ok (filter (fun r => (RSI r <? lit 50)%float) out)
       /\ filter_stocks sheet_B risk_neutral (PyInt 500000) single (PyInt 7)
          = Ok (filter (fun r => (lit 50 <=? RSI r)%float) out)
       /\ forall r, In r out ->
            (RSI r <? lit 50)%float = negb (lit 50 <=? RSI r)%float.
Proof.
  assert (Hrec : recognized risk_neutral) by (right; left; reflexivity).
  assert (Hm : "离异" <> married) by discriminate.
  assert (Hs : "离异" <> single) by discriminate.
  split; [exact Hrec|]. split; [exact Hm|]. split; [exact Hs|].
  apply (marital_status_splits_result sheet_B risk_neutral (PyInt 500000)
           "离异" (PyInt 7) Hrec Hm Hs).
Defined.

Lemma result_length_bound {E : Type} (df : DataFrame E) rp a m e out :
  filter_stocks df rp a m e = Ok out ->
  (List.length out <= List.length df)%nat.
Proof.
  intros Hf.
  pose proof (filter_stocks_Ok_recognized _ _ _ _ _ _ Hf) as Hrec.
  rewrite filter_stocks_normal_form in Hf by exact Hrec.
  injection Hf as <-.
  pose proof (filter_length_le (keep_row rp a m e)
                (drop_duplicates (map project df))) as H1.
  pose proof (drop_duplicates_length (map project df)) as H2.
  rewrite length_map in H2. lia.
Qed.

(** X9. The returned table never has more rows than the sheet. *)
Theorem result_is_not_longer {E : Type} (df : DataFrame E)
  (risk_preference : string) (asset_size : pynum) (marital_status : string)
  (expected_return : pynum) (out : DataFrame unit) :
  filter_stocks df risk_preference asset_size marital_status expected_return
  = Ok out ->
  (List.length out <= List.length df)%nat.
Proof. apply result_length_bound. Qed.

Lemma result_is_not_longer_witness :
  filter_stocks sheet_repeats risk_averse (PyInt 50000) married (PyInt 3)
  = Ok [mkRow "001" 20 20 20 20 tt; mkRow "001" 10 20 20 20 tt]
  /\ (List.length [mkRow "001" 20 20 20 20 tt; mkRow "001" 10 20 20 20 tt]
      <= List.length sheet_repeats)%nat.
Proof.
  split; [reflexivity|].
  apply (result_is_not_longer sheet_repeats risk_averse (PyInt 50000) married
           (PyInt 3)).
  reflexivity.
Defined.

(** X10. With the values the form of [main] starts with (asset size 100000,
    neutral, married, expected return 5) the recommendation is, for every
    sheet, the deduplicated rows with K, D and J between 30 and 70 inclusive
    and RSI at least 30 and below 50. *)
Theorem default_form_recommendation {E : Type} (df : DataFrame E) :
  filter_stocks df (risk_preference_input default_form)
                (PyInt (asset_size_input default_form))
                (marital_status_input default_form)
                (PyInt (expected_return_input default_form))
  = Ok (filter (fun r =>
                  ((lit 30 <=? K r)%float && (K r <=? lit 70)%float)
                  && ((lit 30 <=? D r)%float && (D r <=? lit 70)%float)
                  && ((lit 30 <=? J r)%float && (J r <=? lit 70)%float)
                  && ((lit 30 <=? RSI r)%float && (RSI r <? lit 50)%float))
               (drop_duplicates (map project df))).
Proof.
  change (risk_preference_input default_form) with risk_neutral.
  change (marital_status_input default_form) with married.
  change (asset_size_input default_form) with 100000%Z.
  change (expected_return_input default_form) with 5%Z.
  rewrite filter_stocks_normal_form by (right; left; reflexivity).
  f_equal. apply filter_ext. intros r.
  unfold keep_row, rsi_keep. rewrite !bracket_keep_of.
  change (bracket_of 100000 1000000 (PyInt 100000)) with Mid.
  change (bracket_of 5 10 (PyInt 5)) with Mid.
  change (risk_rule risk_neutral r) with (neutral_rule r).
  change (marital_keep married (RSI r)) with (rsi_below_50 (RSI r)).
  unfold neutral_rule, rsi_30_to_70, rsi_below_50.
  destruct (RSI r <? lit 50)%float eqn:Hlt.
  - assert (Hle : (RSI r <=? lit 70)%float = true).
    { apply ltb_leb. apply (FloatOrder.ltb_trans _ _ _ Hlt). reflexivity. }
    rewrite Hle.
    destruct (lit 30 <=? K r)%float, (K r <=? lit 70)%float,
      (lit 30 <=? D r)%float, (D r <=? lit 70)%float,
      (lit 30 <=? J r)%float, (J r <=? lit 70)%float,
      (lit 30 <=? RSI r)%float; reflexivity.
  - rewrite !andb_false_r. reflexivity.
Qed.

(** * [main] *)

Lemma form_valid_recognized (w : form) :
  form_valid w -> recognized (risk_preference_input w).
Proof.
  intros (_ & H & _). unfold risk_options in H. simpl in H.
  unfold recognized. destruct H as [H|[H|[H|[]]]]; auto.
Qed.



(** X13. The three RSI blocks can run in any order, and the risk block can
    run after them: the blocks commute pairwise, and running the risk block
    on a frame the RSI blocks have narrowed gives what they leave of its
    own output. *)
Theorem blocks_commute {E : Type} (filtered : DataFrame E)
  (risk_preference : string) (asset_size : pynum) (marital_status : string)
  (expected_return : pynum) :
  asset_stage (marital_stage filtered marital_status) asset_size
  = marital_stage (asset_stage filtered asset_size) marital_status
  /\ return_stage (asset_stage filtered asset_size) expected_return
     = asset_stage (return_stage filtered expected_return) asset_size
  /\ return_stage (marital_stage filtered marital_status) expected_return
     = marital_stage (return_stage filtered expected_return) marital_status
  /\ (forall s1,
        risk_stage filtered risk_preference = Ok s1 ->
        risk_stage (narrow filtered asset_size marital_status expected_return)
                   risk_preference
        = Ok (narrow s1 asset_size marital_status expected_return)).
Proof.
  repeat apply conj.
  - rewrite !asset_stage_filter, !marital_stage_filter, !filter_filter.
    apply filter_ext. intros r. apply andb_comm.
  - rewrite !asset_stage_filter, !return_stage_filter, !filter_filter.
    apply filter_ext. intros r. apply andb_comm.
  - rewrite !marital_stage_filter, !return_stage_filter, !filter_filter.
    apply filter_ext. intros r. apply andb_comm.
  - intros s1 H1.
    pose proof (risk_stage_Ok_recognized _ _ _ H1) as Hrec.
    rewrite risk_stage_rule in H1 |- * by exact Hrec.
    injection H1 as <-. rewrite !narrow_filter, !filter_filter.
    f_equal. apply filter_ext. intros r. apply andb_comm.
Qed.

Lemma blocks_commute_witness :
  risk_stage sheet_repeats risk_averse = Ok sheet_repeats_averse
  /\ risk_stage (narrow sheet_repeats (PyInt 50000) married (PyInt 3))
                risk_averse
     = Ok (narrow sheet_repeats_averse (PyInt 50000) married (PyInt 3)).
Proof.
  split; [reflexivity|].
  destruct (blocks_commute sheet_repeats risk_averse (PyInt 50000) married
              (PyInt 3)) as (_ & _ & _ & H).
  apply H. reflexivity.
Defined.

(** X14. No qualifying row is lost: every row of the sheet that passes the
    tests of all four blocks is represented in the result by a row equal to
    it on the five columns. *)
Theorem qualifying_rows_are_represented {E : Type} (df : DataFrame E)
  (risk_preference : string) (asset_size : pynum) (marital_status : string)
  (expected_return : pynum) (out : DataFrame unit) :
  filter_stocks df risk_preference asset_size marital_status expected_return
  = Ok out ->
  forall row,
    In row df ->
    risk_rule risk_preference row = true ->
    bracket_keep 100000 1000000 asset_size (RSI row) = true ->
    marital_keep marital_status (RSI row) = true ->
    bracket_keep 5 10 expected_return (RSI row) = true ->
    exists r, In r out /\ row_same (project row) r = true.
Proof.
  intros Hf row Hrow Hrule Ha Hm He.
  pose proof (filter_stocks_Ok_recognized _ _ _ _ _ _ Hf) as Hrec.
  rewrite filter_stocks_normal_form in Hf by exact Hrec.
  injection Hf as <-.
  destruct (drop_duplicates_represents (map project df) (project row))
    as (r & Hr & Hsame); [apply in_map, Hrow|].
  exists r. split; [|exact Hsame].
  apply filter_In. split; [exact Hr|].
  rewrite <- (keep_row_respects _ _ _ _ _ _ Hsame), keep_row_project.
  unfold keep_row, rsi_keep. rewrite Hrule, Ha, Hm, He. reflexivity.
Qed.

Lemma qualifying_rows_are_represented_witness :
  filter_stocks sheet_repeats risk_averse (PyInt 50000) married (PyInt 3)
  = Ok [mkRow "001" 20 20 20 20 tt; mkRow "001" 10 20 20 20 tt]
  /\ exists r,
       In r [mkRow "001" 20 20 20 20 tt; mkRow "001" 10 20 20 20 tt]
       /\ row_same (project (mkRow "001" 20 20 20 20 "alpha again")) r = true.
Proof.
  split; [reflexivity|].
  apply (qualifying_rows_are_represented sheet_repeats risk_averse
           (PyInt 50000) married (PyInt 3) _ eq_refl
           (mkRow "001" 20 20 20 20 "alpha again"));
    try reflexivity.
  simpl. auto.
Defined.
